(** * Convert-to-ONNX: a shallow embedding of [app.py]

    The program is glue around four outside parties: the Hugging Face
    identity and upload services, the transformers.js source archive, the
    conversion subprocess, and the local file system.  The embedding keeps
    the file system as explicit state, records every outside interaction in
    an event list, and takes the answers of the outside parties from a
    record of oracles, so that each method of [Config] and [ModelConverter]
    is an executable function that can be traced against its Python text. *)

From Stdlib Require Import ZArith Ascii.
From stdpp Require Import gmap strings list fin_maps sorting.

(** ** Python values *)

(** An exception is its class name and the text [str(e)] yields. *)
Record exn := Exn { exn_class : string; exn_text : string }.

Definition str_exn (e : exn) : string := exn_text e.

Inductive result (A : Type) : Type :=
| Ok (a : A)
| Raise (e : exn).
Arguments Ok {A} a.
Arguments Raise {A} e.

(** Truthiness of an [Optional[str]]: [None] and the empty string are falsy. *)
Definition truthy (o : option string) : bool :=
  match o with
  | Some s => negb (String.eqb s "")
  | None => false
  end.

(** [a or b] on [Optional[str]]. *)
Definition py_or (a b : option string) : option string :=
  if truthy a then a else b.

(** ** Paths ([pathlib.PurePosixPath]) *)

(** A path is its list of components; an absolute path starts with the
    component ["/"].  The empty list is the current directory. *)
Abbreviation path := (list string).

Fixpoint split_slash (s cur : string) : list string :=
  match s with
  | EmptyString => [cur]
  | String c s' =>
      if Ascii.eqb c "/"%char then cur :: split_slash s' ""
      else split_slash s' (cur +:+ String c "")
  end.

Definition is_component (c : string) : bool :=
  negb (String.eqb c "") && negb (String.eqb c ".").

Definition is_absolute (s : string) : bool :=
  match s with
  | String c _ => Ascii.eqb c "/"%char
  | EmptyString => false
  end.

(** [Path(s)]: empty and ["."] components are dropped, [".."] is kept. *)
Definition Path (s : string) : path :=
  let comps := List.filter is_component (split_slash s "") in
  if is_absolute s then "/" :: comps else comps.

(** [p / s]: an absolute right operand replaces the left one. *)
Definition joinpath (p : path) (s : string) : path :=
  if is_absolute s then Path s else p ++ Path s.

Infix "//" := joinpath (at level 40, left associativity).

Definition join_slash (l : list string) : string := String.concat "/" l.

(** [str(p)] *)
Definition str_path (p : path) : string :=
  match p with
  | [] => "."
  | c :: rest => if String.eqb c "/" then "/" +:+ join_slash rest else join_slash p
  end.

(** [p.name] *)
Definition name (p : path) : string := List.last p "".

(** [p.parent] *)
Definition parent (p : path) : path := removelast p.

(** Index of the last ["."] of [s], counted from [i]. *)
Fixpoint rfind_dot (s : string) (i : nat) : option nat :=
  match s with
  | EmptyString => None
  | String c s' =>
      match rfind_dot s' (S i) with
      | Some j => Some j
      | None => if Ascii.eqb c "."%char then Some i else None
      end
  end.

(** [p.suffix]: the text from the last dot of the name, unless that dot is
    the first or the last character. *)
Definition suffix (p : path) : string :=
  let n := name p in
  match rfind_dot n 0 with
  | Some i =>
      if (0 <? i) && (i <? String.length n - 1)
      then String.substring i (String.length n - i) n
      else ""
  | None => ""
  end.

(** ** The file system *)

(** Regular files carry their contents; directories are marked, their
    entries are the paths one component longer.  Symbolic links, devices and
    permissions are outside the model. *)
Inductive node :=
| File (data : string)
| Dir.

Global Instance node_eq_dec : EqDecision node.
Proof. solve_decision. Defined.

Abbreviation filesystem := (gmap (list string) node).

(** What [os.stat] sees: the current directory always exists. *)
Definition stat (fs : filesystem) (p : path) : option node :=
  if decide (p = []) then Some Dir else fs !! p.

Definition is_dir_at (fs : filesystem) (p : path) : bool :=
  match stat fs p with Some Dir => true | _ => false end.

Definition is_file_at (fs : filesystem) (p : path) : bool :=
  match stat fs p with Some (File _) => true | _ => false end.

Definition exists_at (fs : filesystem) (p : path) : bool :=
  match stat fs p with Some _ => true | None => false end.

(** [q] is [p] or lies below it. *)
Definition under (p q : path) : Prop := p `prefix_of` q.

Global Instance under_dec p q : Decision (under p q).
Proof. unfold under. apply _. Defined.

(** The name of [q] when it is an entry of directory [p]. *)
Definition child_name (p q : path) : option string :=
  match drop (length p) q with
  | [n] => if decide (take (length p) q = p) then Some n else None
  | _ => None
  end.

(** A directory entry's name is not empty, not ["."] and holds no slash. *)
Fixpoint has_slash (s : string) : bool :=
  match s with
  | EmptyString => false
  | String c s' => Ascii.eqb c "/"%char || has_slash s'
  end.

Definition valid_name (n : string) : bool :=
  is_component n && negb (has_slash n).

(** The entries of directory [p], in no particular order. *)
Definition children (fs : filesystem) (p : path) : list string :=
  filter (λ n : string, Is_true (valid_name n))
         (omap (child_name p) (map_to_list fs).*1).

(** ** Effects *)

(** Every interaction with the outside, in the order it happens.  An
    upload records the tree it was handed. *)
Inductive event :=
| EvWhoami (token : option string)
| EvUrlopen (url : string)
| EvUrlretrieve (url : string) (dest : path)
| EvSubprocess (args : list string) (cwd : path)
| EvUploadFolder (token folder_path repo_id path_in_repo : string)
    (tree : filesystem)
| EvLog (level msg : string)
| EvExists (p : path)
| EvIsFile (p : path)
| EvIterdir (p : path)
| EvMkdir (p : path)
| EvRename (src dst : path)
| EvUnlink (p : path)
| EvRmtree (p : path)
| EvMkdtemp (p : path)
| EvTarExtract (archive dest : path).

(** The arguments of the uploads among [evs]:
    [(folder_path, repo_id, path_in_repo)]. *)
Definition pushes (evs : list event) : list (string * string * string) :=
  omap (λ ev, match ev with
              | EvUploadFolder _ f r s _ => Some (f, r, s)
              | _ => None
              end) evs.

(** What a computation leaves behind: its value or exception, the file
    system, and what it did. *)
Record outcome (A : Type) := Outcome {
  value : result A;
  disk : filesystem;
  effects : list event }.
Arguments Outcome {A} value disk effects.
Arguments value {A} o.
Arguments disk {A} o.
Arguments effects {A} o.

Definition M (A : Type) : Type := filesystem → outcome A.

Definition ret {A} (a : A) : M A := λ fs, Outcome (Ok a) fs [].

Definition raise {A} (e : exn) : M A := λ fs, Outcome (Raise e) fs [].

Definition bind {A B} (m : M A) (k : A → M B) : M B := λ fs,
  let o := m fs in
  match value o with
  | Ok a =>
      let o' := k a (disk o) in
      Outcome (value o') (disk o') (effects o ++ effects o')
  | Raise e => Outcome (Raise e) (disk o) (effects o)
  end.

Global Instance M_ret : MRet M := @ret.
Global Instance M_bind : MBind M := λ A B k m, bind m k.

(** [try: body  except Exception as e: handler e] *)
Definition try_except {A} (body : M A) (handler : exn → M A) : M A := λ fs,
  let o := body fs in
  match value o with
  | Ok a => o
  | Raise e =>
      let o' := handler e (disk o) in
      Outcome (value o') (disk o') (effects o ++ effects o')
  end.

(** [try: body  finally: fin]: [fin] always runs; an exception of [fin]
    replaces whatever [body] produced. *)
Definition try_finally {A} (body : M A) (fin : M unit) : M A := λ fs,
  let o := body fs in
  let o' := fin (disk o) in
  Outcome (match value o' with Ok _ => value o | Raise e => Raise e end)
          (disk o') (effects o ++ effects o').

(** [for x in l: body x] *)
Fixpoint for_each {A} (l : list A) (body : A → M unit) : M unit :=
  match l with
  | [] => ret tt
  | x :: l' => body x ;; for_each l' body
  end.

Definition os_error (cls : string) (errno : string) (what : string) (p : path) : exn :=
  Exn cls ("[Errno " +:+ errno +:+ "] " +:+ what +:+ ": '" +:+ str_path p +:+ "'").

Definition FileNotFoundError := os_error "FileNotFoundError" "2" "No such file or directory".
Definition FileExistsError := os_error "FileExistsError" "17" "File exists".
Definition NotADirectoryError := os_error "NotADirectoryError" "20" "Not a directory".
Definition IsADirectoryError := os_error "IsADirectoryError" "21" "Is a directory".
Definition DirectoryNotEmpty := os_error "OSError" "39" "Directory not empty".
Definition InvalidArgument := os_error "OSError" "22" "Invalid argument".

(** The error of an operation that needs the directory holding [p]. *)
Definition parent_error (fs : filesystem) (p : path) : option exn :=
  match stat fs (parent p) with
  | Some Dir => None
  | Some (File _) => Some (NotADirectoryError p)
  | None => Some (FileNotFoundError p)
  end.

(** ** File-system primitives ([pathlib], [shutil]) *)

(** [p.exists()] *)
Definition path_exists (p : path) : M bool := λ fs,
  Outcome (Ok (exists_at fs p)) fs [EvExists p].

(** [p.is_file()] *)
Definition path_is_file (p : path) : M bool := λ fs,
  Outcome (Ok (is_file_at fs p)) fs [EvIsFile p].

(** [p.mkdir(exist_ok=True)]: an existing directory is accepted, an
    existing file is not; the parent must be a directory. *)
Definition mkdir_exist_ok (p : path) : M unit := λ fs,
  match stat fs p with
  | Some Dir => Outcome (Ok tt) fs [EvMkdir p]
  | Some (File _) => Outcome (Raise (FileExistsError p)) fs [EvMkdir p]
  | None =>
      match parent_error fs p with
      | Some e => Outcome (Raise e) fs [EvMkdir p]
      | None => Outcome (Ok tt) (<[p := Dir]> fs) [EvMkdir p]
      end
  end.

(** ** The outside world *)

(** [subprocess.CompletedProcess] with captured text streams. *)
Record completed_process := CompletedProcess {
  returncode : Z;
  stdout : string;
  stderr : string }.

(** How a download can end. *)
Inductive download :=
| Fetched (data : string)
| FetchFailed (e : exn)
| FetchCut (data : string) (e : exn).

(** The answers of everything the program does not control.  [whoami_name]
    is [whoami(token=...)["name"]]; [urlopen_code] is
    [urlopen(url).getcode()]; [FetchFailed] is a download that raised before
    the destination was opened and [FetchCut] one that raised after part of
    it was written; [tar_members] lists what an archive with the given
    bytes unpacks to, relative to the extraction directory; [run_process]
    is [subprocess.run], which may also change the file system;
    [dir_rank] fixes the order in which a directory reports its entries. *)
Record external := External {
  whoami_name : option string → result string;
  urlopen_code : string → result Z;
  urlretrieve_fetch : string → download;
  tar_members : string → result (list (path * node));
  mkdtemp_path : filesystem → path;
  run_process : list string → path → filesystem →
                result completed_process * filesystem;
  hf_upload_folder : string → string → string → string → filesystem →
                     result unit;
  sys_executable : string;
  dir_rank : string → nat }.

(** [st.secrets], [st.session_state] and [os.environ]. *)
Record environment := Environment {
  secrets : gmap string string;
  session_state : gmap string string;
  environ : gmap string string }.

(** The order of a directory listing is the platform's. *)
Definition rank_le (rank : string → nat) (a b : string) : Prop :=
  (rank a ≤ rank b)%nat.

Global Instance rank_le_dec rank : RelDecision (rank_le rank).
Proof. intros a b. unfold rank_le. apply _. Defined.

Definition listing (rank : string → nat) (fs : filesystem) (p : path) : list string :=
  merge_sort (rank_le rank) (children fs p).

(** The entries at or below [src], re-rooted at [dst]. *)
Definition moved_entries (src dst : path) (fs : filesystem) : list (path * node) :=
  omap (λ '(q, v), if decide (under src q)
                   then Some (dst ++ drop (length src) q, v) else None)
       (map_to_list fs).

Definition move_tree (src dst : path) (fs : filesystem) : filesystem :=
  list_to_map (moved_entries src dst fs)
  ∪ filter (λ kv, ¬ under src kv.1 ∧ ¬ under dst kv.1) fs.

Definition logger_warning (msg : string) : M unit := λ fs,
  Outcome (Ok tt) fs [EvLog "WARNING" msg].

Definition logger_info (msg : string) : M unit := λ fs,
  Outcome (Ok tt) fs [EvLog "INFO" msg].

(** The paths of the entries of directory [p]. *)
Definition entries (rank : string → nat) (fs : filesystem) (p : path) : list path :=
  (λ n, p ++ [n]) <$> listing rank fs p.

(** [p.iterdir()], read in full before the first entry is handed out. *)
Definition iterdir (rank : string → nat) (p : path) : M (list path) := λ fs,
  match stat fs p with
  | Some Dir => Outcome (Ok (entries rank fs p)) fs [EvIterdir p]
  | Some (File _) => Outcome (Raise (NotADirectoryError p)) fs [EvIterdir p]
  | None => Outcome (Raise (FileNotFoundError p)) fs [EvIterdir p]
  end.

(** [src.rename(dst)] ([os.rename] on POSIX): a file replaces a file, never
    a directory; a directory replaces only an empty directory. *)
Definition rename (src dst : path) : M unit := λ fs,
  let fail e := Outcome (Raise e) fs [EvRename src dst] in
  let done fs' := Outcome (Ok tt) fs' [EvRename src dst] in
  match stat fs src with
  | None => fail (FileNotFoundError src)
  | Some (File data) =>
      match stat fs dst with
      | Some Dir => fail (IsADirectoryError dst)
      | _ =>
          match parent_error fs dst with
          | Some e => fail e
          | None => done (<[dst := File data]> (delete src fs))
          end
      end
  | Some Dir =>
      match stat fs dst with
      | Some (File _) => fail (NotADirectoryError dst)
      | Some Dir =>
          if decide (src = dst) then done fs
          else if decide (children fs dst = []) then
            if decide (under src dst) then fail (InvalidArgument dst)
            else done (move_tree src dst fs)
          else fail (DirectoryNotEmpty dst)
      | None =>
          match parent_error fs dst with
          | Some e => fail e
          | None =>
              if decide (under src dst) then fail (InvalidArgument dst)
              else done (move_tree src dst fs)
          end
      end
  end.

(** [p.unlink(missing_ok=...)]: only a missing file is forgiven. *)
Definition unlink (p : path) (missing_ok : bool) : M unit := λ fs,
  match stat fs p with
  | Some (File _) => Outcome (Ok tt) (delete p fs) [EvUnlink p]
  | Some Dir => Outcome (Raise (IsADirectoryError p)) fs [EvUnlink p]
  | None =>
      match stat fs (parent p) with
      | Some (File _) => Outcome (Raise (NotADirectoryError p)) fs [EvUnlink p]
      | _ => Outcome (if missing_ok then Ok tt else Raise (FileNotFoundError p))
                     fs [EvUnlink p]
      end
  end.

(** [shutil.rmtree(p, ignore_errors=...)]: a directory goes with all below
    it; on anything else the call fails, silently when errors are ignored. *)
Definition rmtree (p : path) (ignore_errors : bool) : M unit := λ fs,
  match stat fs p with
  | Some Dir =>
      Outcome (Ok tt) (filter (λ kv, ¬ under p kv.1) fs) [EvRmtree p]
  | Some (File _) =>
      Outcome (if ignore_errors then Ok tt else Raise (NotADirectoryError p))
              fs [EvRmtree p]
  | None =>
      Outcome (if ignore_errors then Ok tt else Raise (FileNotFoundError p))
              fs [EvRmtree p]
  end.

(** [open(p, "wb").write(data)] *)
Definition write_file (p : path) (data : string) (fs : filesystem) : result filesystem :=
  match stat fs p with
  | Some Dir => Raise (IsADirectoryError p)
  | _ =>
      match parent_error fs p with
      | Some e => Raise e
      | None => Ok (<[p := File data]> fs)
      end
  end.

Section Program.

Variable ext : external.

(** [whoami(token=token)["name"]] *)
Definition whoami (token : option string) : M string := λ fs,
  Outcome (whoami_name ext token) fs [EvWhoami token].

(** [urlopen(url).getcode()] *)
Definition urlopen_getcode (url : string) : M Z := λ fs,
  Outcome (urlopen_code ext url) fs [EvUrlopen url].

(** [urlretrieve(url, dest)] *)
Definition urlretrieve (url : string) (dest : path) : M unit := λ fs,
  let ev := [EvUrlretrieve url dest] in
  match urlretrieve_fetch ext url with
  | FetchFailed e => Outcome (Raise e) fs ev
  | Fetched data =>
      match write_file dest data fs with
      | Ok fs' => Outcome (Ok tt) fs' ev
      | Raise e => Outcome (Raise e) fs ev
      end
  | FetchCut data e =>
      match write_file dest data fs with
      | Ok fs' => Outcome (Raise e) fs' ev
      | Raise e' => Outcome (Raise e') fs ev
      end
  end.

(** [tempfile.TemporaryDirectory().__enter__()] *)
Definition mkdtemp : M path := λ fs,
  let p := mkdtemp_path ext fs in
  if exists_at fs p then Outcome (Raise (FileExistsError p)) fs [EvMkdtemp p]
  else
    match parent_error fs p with
    | Some e => Outcome (Raise e) fs [EvMkdtemp p]
    | None => Outcome (Ok p) (<[p := Dir]> fs) [EvMkdtemp p]
    end.

(** [tarfile.open(archive, "r:gz").extractall(dest)] *)
Definition tar_extractall (archive dest : path) : M unit := λ fs,
  let ev := [EvTarExtract archive dest] in
  match stat fs archive with
  | Some (File data) =>
      match tar_members ext data with
      | Ok members =>
          Outcome (Ok tt)
                  (foldr (λ m acc, <[dest ++ m.1 := m.2]> acc) fs members) ev
      | Raise e => Outcome (Raise e) fs ev
      end
  | Some Dir => Outcome (Raise (IsADirectoryError archive)) fs ev
  | None => Outcome (Raise (FileNotFoundError archive)) fs ev
  end.

(** [subprocess.run(args, cwd=cwd, capture_output=True, text=True, env={})] *)
Definition subprocess_run (args : list string) (cwd : path) : M completed_process := λ fs,
  let '(r, fs') := run_process ext args cwd fs in
  Outcome r fs' [EvSubprocess args cwd].

(** [HfApi(token).upload_folder(folder_path, repo_id, path_in_repo)] *)
Definition upload_folder (token folder_path repo_id path_in_repo : string) : M unit := λ fs,
  Outcome (hf_upload_folder ext token folder_path repo_id path_in_repo fs) fs
          [EvUploadFolder token folder_path repo_id path_in_repo fs].

End Program.

(** ** [class Config] *)

Record Config := mkConfig {
  hf_token : string;
  hf_username : string;
  transformers_version : string;
  hf_base_url : string;
  transformers_base_url : string;
  repo_path : path }.

(** [cls(hf_token=..., hf_username=...)]: the other fields take their
    defaults. *)
Definition cls (hf_token hf_username : string) : Config :=
  mkConfig hf_token hf_username "3.0.0" "https://huggingface.co"
           "https://github.com/xenova/transformers.js/archive/refs"
           (Path "./transformers.js").

Definition ValueError (msg : string) : exn := Exn "ValueError" msg.
Definition RuntimeError (msg : string) : exn := Exn "RuntimeError" msg.
Definition StopIteration : exn := Exn "StopIteration" "".

(** The URL probed to learn whether the version is a tag. *)
Definition tag_url (config : Config) : string :=
  transformers_base_url config +:+ "/tags/"
  +:+ transformers_version config +:+ ".tar.gz".

(** [archive_url] of [setup_repository] *)
Definition archive_url (config : Config) (ref_type : string) : string :=
  transformers_base_url config +:+ "/" +:+ ref_type +:+ "/"
  +:+ transformers_version config +:+ ".tar.gz".

(** [archive_path] of [setup_repository] *)
Definition archive_path (config : Config) : path :=
  Path ("./transformers_" +:+ transformers_version config +:+ ".tar.gz").

(** [model_folder_path] and [onnx_folder_path] of [upload_model] *)
Definition model_folder_path (config : Config) (input_model_id : string) : path :=
  repo_path config // "models" // input_model_id.

Definition onnx_folder_path (config : Config) (input_model_id : string) : path :=
  model_folder_path config input_model_id // "onnx".

(** The command line of [convert_model]. *)
Definition convert_args (executable input_model_id : string) : list string :=
  [executable; "-m"; "scripts.convert"; "--quantize"; "--model_id";
   input_model_id].

Section Methods.

Variable ext : external.

(** [Config.from_env] *)
Definition from_env (env : environment) : M Config :=
  let system_token := secrets env !! "HF_TOKEN" in
  let user_token := session_state env !! "user_hf_token" in
  hf_username ←
    (if truthy user_token then whoami ext user_token
     else
       let author := environ env !! "SPACE_AUTHOR_NAME" in
       if truthy author then ret (default "" author)
       else whoami ext system_token);
  let hf_token := py_or user_token system_token in
  if negb (truthy hf_token) then raise (ValueError "HF_TOKEN must be set")
  else ret (cls (default "" hf_token) hf_username).

(** ** [class ModelConverter] *)

(** [ModelConverter._get_ref_type] *)
Definition _get_ref_type (config : Config) : M string :=
  let url := tag_url config in
  try_except
    (code ← urlopen_getcode ext url;
     ret (if (code =? 200)%Z then "tags" else "heads"))
    (λ e,
      logger_warning ("Failed to check tags, defaulting to heads: " +:+ str_exn e) ;;
      ret "heads").

(** [ModelConverter._extract_archive] *)
Definition _extract_archive (config : Config) (archive_path : path) : M unit :=
  tmp_dir ← mkdtemp ext;
  try_finally
    (tar_extractall ext archive_path tmp_dir ;;
     entries ← iterdir (dir_rank ext) tmp_dir;
     match entries with
     | extracted_folder :: _ => rename extracted_folder (repo_path config)
     | [] => raise StopIteration
     end)
    (rmtree tmp_dir false).

(** The [try] block of [setup_repository]. *)
Definition setup_try (config : Config) (archive_url : string)
    (archive_path : path) : M unit :=
  urlretrieve ext archive_url archive_path ;;
  _extract_archive config archive_path ;;
  logger_info "Repository downloaded and extracted successfully".

(** [ModelConverter.setup_repository] *)
Definition setup_repository (config : Config) : M unit :=
  found ← path_exists (repo_path config);
  if (found : bool) then ret tt
  else
    ref_type ← _get_ref_type config;
    let archive_url := archive_url config ref_type in
    let archive_path := archive_path config in
    try_finally
      (try_except
         (setup_try config archive_url archive_path)
         (λ e, raise (RuntimeError ("Failed to setup repository: " +:+ str_exn e))))
      (unlink archive_path true).

(** [ModelConverter.convert_model] *)
Definition convert_model (config : Config) (input_model_id : string)
  : M (bool * option string) :=
  try_except
    (result ← subprocess_run ext
       (convert_args (sys_executable ext) input_model_id) (repo_path config);
     if negb (returncode result =? 0)%Z then ret (false, Some (stderr result))
     else ret (true, Some (stderr result)))
    (λ e, ret (false, Some (str_exn e))).

(** The body of the loop of [upload_model]. *)
Definition move_if_onnx (onnx_folder_path file : path) : M unit :=
  is_file ← path_is_file file;
  if (is_file : bool) && String.eqb (suffix file) ".onnx"
  then rename file (onnx_folder_path // name file)
  else ret tt.

(** The loop of [upload_model] over the directory listing. *)
Definition move_onnx_files (onnx_folder_path : path) (files : list path) : M unit :=
  for_each files (move_if_onnx onnx_folder_path).

(** The [try] block of [upload_model]. *)
Definition upload_try (config : Config) (input_model_id : string)
  : M (option string) :=
  let model_folder_path := model_folder_path config input_model_id in
  let onnx_folder_path := onnx_folder_path config input_model_id in
  mkdir_exist_ok onnx_folder_path ;;
  files ← iterdir (dir_rank ext) model_folder_path;
  move_onnx_files onnx_folder_path files ;;
  upload_folder ext (hf_token config) (str_path onnx_folder_path)
                input_model_id "onnx" ;;
  ret None.

(** [ModelConverter.upload_model]; [model_folder_path] is bound by the
    first statement of the [try] block, a path computation that cannot
    raise, so the [finally] block always finds it. *)
Definition upload_model (config : Config) (input_model_id : string)
  : M (option string) :=
  try_finally
    (try_except
       (upload_try config input_model_id)
       (λ e, ret (Some (str_exn e))))
    (rmtree (model_folder_path config input_model_id) true).

End Methods.

(** ** The page ([main]) *)

(** What [main] puts on the Streamlit page and into the log, in order. *)
Inductive widget :=
| StWrite (body : string)
| StTextInput (label : string)
| StPasswordInput (label key : string)
| StButton (label : string)
| StSpinner (text : string)
| StError (body : string)
| StSuccess (body : string)
| StCode (body : option string)
| StLinkButton (label url : string)
| LoggerException (msg : string).

(** What the visitor did on this run of the script: the text in the model
    field and whether the button was pressed.  The token field writes to
    [st.session_state] for the run after this one. *)
Record form := Form {
  model_id_field : string;
  proceed_clicked : bool }.

(** A run of the script: what the calls into [Config] and [ModelConverter]
    left behind, and the page. *)
Record page (A : Type) := Page {
  answer : outcome A;
  screen : list widget }.
Arguments Page {A} answer screen.
Arguments answer {A} p.
Arguments screen {A} p.

Definition P (A : Type) : Type := filesystem → page A.

Definition page_ret {A} (a : A) : P A := λ fs, Page (ret a fs) [].

Definition page_bind {A B} (m : P A) (k : A → P B) : P B := λ fs,
  let p := m fs in
  match value (answer p) with
  | Ok a =>
      let p' := k a (disk (answer p)) in
      Page (Outcome (value (answer p')) (disk (answer p'))
                    (effects (answer p) ++ effects (answer p')))
           (screen p ++ screen p')
  | Raise e => Page (Outcome (Raise e) (disk (answer p)) (effects (answer p)))
                    (screen p)
  end.

Global Instance P_ret : MRet P := @page_ret.
Global Instance P_bind : MBind P := λ A B k m, page_bind m k.

(** [try: body  except Exception as e: handler e] around page code. *)
Definition page_try_except {A} (body : P A) (handler : exn → P A) : P A := λ fs,
  let p := body fs in
  match value (answer p) with
  | Ok a => p
  | Raise e =>
      let p' := handler e (disk (answer p)) in
      Page (Outcome (value (answer p')) (disk (answer p'))
                    (effects (answer p) ++ effects (answer p')))
           (screen p ++ screen p')
  end.

(** A call into the program proper. *)
Definition call {A} (m : M A) : P A := λ fs, Page (m fs) [].

(** A widget that only shows something. *)
Definition st (w : widget) : P unit := λ fs, Page (ret tt fs) [w].

(** [st.text_input(label)] and [st.button(label)] hand back what the
    visitor entered. *)
Definition st_text_input (label entered : string) : P string := λ fs,
  Page (ret entered fs) [StTextInput label].

Definition st_button (label : string) (pressed : bool) : P bool := λ fs,
  Page (ret pressed fs) [StButton label].

(** [f"{x}"] for an [Optional[str]]. *)
Definition format_optional (o : option string) : string := default "None" o.

Definition page_title : string :=
  "## Convert a Hugging Face model to ONNX & Upload Directly to Your Hf Model Repo".

Definition model_id_label : string :=
  "Enter the Hugging Face model ID to convert, onnx write to repo.  Example: `prithivMLmods/FastThink-0.5B-Tiny`".

Definition token_label : string :=
  "[ 🪪 mandatory ]: Your Hugging Face write token. Fill it if you want to upload the model under your account. `[model_name]/onnx/..`".

Section Driver.

Variable ext : external.

(** The part of [main] after a successful conversion. *)
Definition main_upload (config : Config) (input_model_id output_model_url : string)
  : P unit :=
  st (StSpinner "Uploading model...") ;;
  error ← call (upload_model ext config input_model_id);
  if truthy error
  then st (StError ("Upload failed: " +:+ format_optional error))
  else
    st (StSuccess "Upload successful!") ;;
    st (StWrite "You can now go and view the model on Hugging Face!") ;;
    st (StLinkButton ("Go to " +:+ input_model_id) output_model_url).

(** The part of [main] after the button was pressed. *)
Definition main_convert (config : Config) (input_model_id output_model_url : string)
  : P unit :=
  st (StSpinner "Converting model...") ;;
  converted ← call (convert_model ext config input_model_id);
  if negb (converted.1 : bool)
  then st (StError ("Conversion failed: " +:+ format_optional converted.2))
  else
    st (StSuccess "Conversion successful!") ;;
    st (StCode converted.2) ;;
    main_upload config input_model_id output_model_url.

(** The part of [main] after the bootstrap: the form. *)
Definition main_form (config : Config) (ui : form) : P unit :=
  input_model_id ← st_text_input model_id_label (model_id_field ui);
  if String.eqb input_model_id "" then mret tt
  else
    st (StPasswordInput token_label "user_hf_token") ;;
    let output_model_url := hf_base_url config +:+ "/" +:+ input_model_id in
    pressed ← st_button "Proceed" (proceed_clicked ui);
    if negb pressed then mret tt
    else main_convert config input_model_id output_model_url.

(** The [try] block of [main]; a [return] ends the block with [None]. *)
Definition main_try (env : environment) (ui : form) : P unit :=
  config ← call (from_env ext env);
  call (setup_repository ext config) ;;
  main_form config ui.

(** [main] *)
Definition main (env : environment) (ui : form) : P unit :=
  st (StWrite page_title) ;;
  page_try_except
    (main_try env ui)
    (λ e,
      st (LoggerException "Application error") ;;
      st (StError ("An error occurred: " +:+ str_exn e))).

End Driver.

(** ** Vocabulary of the statements *)

(** Entry [n] of directory [d] is a regular file with suffix [.onnx]: what
    the loop of [upload_model] moves. *)
Definition movable (fs : filesystem) (d : path) (n : string) : bool :=
  is_file_at fs (d ++ [n]) && String.eqb (suffix (d ++ [n])) ".onnx".

(** The two kinds of reference the source archive knows, and the segment
    of the archive address that stands for each. *)
Inductive reference_type := Tag | Branch.

Definition ref_segment (kind : reference_type) : string :=
  match kind with
  | Tag => "tags"
  | Branch => "heads"
  end.

(** The trees handed to the uploads among [evs]. *)
Definition pushed_trees (evs : list event) : list filesystem :=
  omap (λ ev, match ev with
              | EvUploadFolder _ _ _ _ tree => Some tree
              | _ => None
              end) evs.

(** ** Sample worlds *)

(** A cooperative outside: the token belongs to [alice], the version is a
    tag, the archive unpacks to one folder, the converter exits with 0 and
    the hub accepts. *)
Definition sample_ext : external :=
  External (λ _, Ok "alice") (λ _, Ok 200%Z) (λ _, Fetched "tgz")
           (λ _, Ok [(["transformers.js-3.0.0"], Dir);
                     (["transformers.js-3.0.0"; "README.md"], File "readme")])
           (λ _, ["tmp"; "tmpabc"])
           (λ _ _ fs, (Ok (CompletedProcess 0 "" ""), fs))
           (λ _ _ _ _ _, Ok tt) "python3" (λ _, 0).

(** An outside in which nothing works. *)
Definition failing_ext : external :=
  External (λ _, Raise (Exn "HTTPError" "401 Unauthorized"))
           (λ _, Raise (Exn "HTTPError" "HTTP Error 404: Not Found"))
           (λ _, FetchCut "tg" (Exn "ContentTooShortError" "retrieval incomplete"))
           (λ _, Raise (Exn "ReadError" "not a gzip file"))
           (λ _, ["tmp"; "tmpabc"])
           (λ _ _ fs, (Raise (Exn "FileNotFoundError" "No such file or directory"), fs))
           (λ _ _ _ _ _, Raise (Exn "HfHubHTTPError" "403 Forbidden"))
           "python3" (λ _, 0).

Definition sample_config : Config := cls "hf_secret" "alice".

Definition sample_model_dir : path :=
  ["transformers.js"; "models"; "org"; "model-x"].

(** A checkout without any model output. *)
Definition checkout_fs : filesystem :=
  <[ ["transformers.js"; "models"; "org"] := Dir ]>
  (<[ ["transformers.js"; "models"] := Dir ]>
  (<[ ["transformers.js"] := Dir ]> ∅)).

(** The output of a conversion: a model file, a file of another kind, and a
    model file one level further down. *)
Definition converted_fs : filesystem :=
  <[ sample_model_dir ++ ["model.onnx"] := File "weights" ]>
  (<[ sample_model_dir ++ ["config.json"] := File "{}" ]>
  (<[ sample_model_dir ++ ["sub"; "deep.onnx"] := File "nested" ]>
  (<[ sample_model_dir ++ ["sub"] := Dir ]>
  (<[ sample_model_dir := Dir ]> checkout_fs)))).

(** The tree the hub is shown for [converted_fs]. *)
Definition converted_pushed : filesystem :=
  <[ sample_model_dir ++ ["onnx"; "model.onnx"] := File "weights" ]>
  (<[ sample_model_dir ++ ["onnx"] := Dir ]>
  (delete (sample_model_dir ++ ["model.onnx"]) converted_fs)).

(** An output directory in which a regular file sits where the subfolder
    should go, next to a model file. *)
Definition blocked_fs : filesystem :=
  <[ sample_model_dir ++ ["onnx"] := File "not a folder" ]> converted_fs.

(** An output directory without any model file. *)
Definition no_onnx_fs : filesystem :=
  <[ sample_model_dir ++ ["config.json"] := File "{}" ]>
  (<[ sample_model_dir := Dir ]> checkout_fs).

(** The same with a regular file where the subfolder should go. *)
Definition no_onnx_blocked_fs : filesystem :=
  <[ sample_model_dir ++ ["onnx"] := File "not a folder" ]> no_onnx_fs.

(** Before the first bootstrap: only the temporary area exists. *)
Definition fresh_fs : filesystem := <[ ["tmp"] := Dir ]> ∅.

Definition no_token_env : environment := Environment ∅ ∅ ∅.

Definition no_token_author_env : environment :=
  Environment ∅ ∅ (<[ "SPACE_AUTHOR_NAME" := "alice" ]> ∅).

(** An event that starts a process or calls the hub. *)
Definition acts_outward (ev : event) : Prop :=
  match ev with
  | EvSubprocess _ _ | EvUploadFolder _ _ _ _ _ => True
  | _ => False
  end.

(** A computation none of whose events starts a process or calls the hub,
    from whatever disk it starts. *)
Definition inward {A} (m : M A) : Prop :=
  ∀ fs, Forall (λ ev, ¬ acts_outward ev) (effects (m fs)).

(** Page [p] with [evs] done and [ws] shown before it. *)
Definition after {A} (evs : list event) (ws : list widget) (p : page A) : page A :=
  Page (Outcome (value (answer p)) (disk (answer p)) (evs ++ effects (answer p)))
       (ws ++ screen p).

(** What the page shows up to and including the button. *)
Definition form_widgets : list widget :=
  [StWrite page_title; StTextInput model_id_label;
   StPasswordInput token_label "user_hf_token"; StButton "Proceed"].

(** The two lines every exception ends in. *)
Definition error_report (e : exn) : list widget :=
  [LoggerException "Application error";
   StError ("An error occurred: " +:+ str_exn e)].

(** The segment [_get_ref_type] settles on, read off the probe. *)
Definition probe_segment (ext : external) (config : Config) : string :=
  match urlopen_code ext (tag_url config) with
  | Ok code => if (code =? 200)%Z then "tags" else "heads"
  | Raise _ => "heads"
  end.

(** The subprocess launches among [evs]: command line and directory. *)
Definition launches (evs : list event) : list (list string * path) :=
  omap (λ ev, match ev with
              | EvSubprocess args cwd => Some (args, cwd)
              | _ => None
              end) evs.

(** The tokens of the client the hub was called with
    ([HfApi(token=config.hf_token)]), in order. *)
Definition push_tokens (evs : list event) : list string :=
  omap (λ ev, match ev with
              | EvUploadFolder token _ _ _ _ => Some token
              | _ => None
              end) evs.

(** ** More sample worlds *)

(** A Space with its secret token and the author name set. *)
Definition space_env : environment :=
  Environment (<[ "HF_TOKEN" := "hf_secret" ]> ∅) ∅
              (<[ "SPACE_AUTHOR_NAME" := "alice" ]> ∅).

(** The same after a visitor has entered a token of their own. *)
Definition visitor_env : environment :=
  Environment (<[ "HF_TOKEN" := "hf_secret" ]> ∅)
              (<[ "user_hf_token" := "hf_visitor" ]> ∅)
              (<[ "SPACE_AUTHOR_NAME" := "alice" ]> ∅).

(** An outside like [sample_ext] whose version is not a tag: the probe
    answers 404. *)
Definition branch_ext : external :=
  External (whoami_name sample_ext)
           (λ _, Raise (Exn "HTTPError" "HTTP Error 404: Not Found"))
           (urlretrieve_fetch sample_ext) (tar_members sample_ext)
           (mkdtemp_path sample_ext) (run_process sample_ext)
           (hf_upload_folder sample_ext) "python3" (λ _, 0).

(** An outside like [sample_ext] whose archive holds nothing. *)
Definition empty_archive_ext : external :=
  External (whoami_name sample_ext) (urlopen_code sample_ext)
           (urlretrieve_fetch sample_ext) (λ _, Ok [])
           (mkdtemp_path sample_ext) (run_process sample_ext)
           (hf_upload_folder sample_ext) "python3" (λ _, 0).

(** An outside like [sample_ext] whose hub raises an exception without
    text. *)
Definition silent_hub_ext : external :=
  External (whoami_name sample_ext) (urlopen_code sample_ext)
           (urlretrieve_fetch sample_ext) (tar_members sample_ext)
           (mkdtemp_path sample_ext) (run_process sample_ext)
           (λ _ _ _ _ _, Raise (Exn "TimeoutError" "")) "python3" (λ _, 0).

(** An outside like [sample_ext] whose converter exits with code 1. *)
Definition bad_model_ext : external :=
  External (whoami_name sample_ext) (urlopen_code sample_ext)
           (urlretrieve_fetch sample_ext) (tar_members sample_ext)
           (mkdtemp_path sample_ext)
           (λ _ _ fs, (Ok (CompletedProcess 1 "" "Unknown model"), fs))
           (hf_upload_folder sample_ext) "python3" (λ _, 0).

(** An output directory in which a directory already has the name a model
    file is to take under the subfolder. *)
Definition clash_fs : filesystem :=
  <[ sample_model_dir ++ ["onnx"; "model.onnx"] := Dir ]>
  (<[ sample_model_dir ++ ["onnx"] := Dir ]> converted_fs).

(** A disk with a directory at an absolute path next to the checkout. *)
Definition etc_fs : filesystem :=
  <[ ["/"; "etc"; "passwd"] := File "root" ]>
  (<[ ["/"; "etc"] := Dir ]>
  (<[ ["/"] := Dir ]> converted_fs)).

(** * Properties *)

(** ** Paths *)

Lemma append_snoc_char (cur : string) (c : ascii) (s : string) :
  (cur +:+ String c "") +:+ s = cur +:+ String c s.
Proof.
  induction cur as [|a cur IH]; unfold String.append; fold String.append;
    [done | by f_equal].
Qed.

Lemma append_empty_r (s : string) : s +:+ "" = s.
Proof.
  induction s as [|a s IH]; unfold String.append; fold String.append;
    [done | by f_equal].
Qed.

Lemma split_slash_plain (s cur : string) :
  has_slash s = false → split_slash s cur = [cur +:+ s].
Proof.
  revert cur. induction s as [|c s IH]; intros cur Hs; simpl in *.
  - by rewrite append_empty_r.
  - apply orb_false_iff in Hs as [Hc Hs]. rewrite Hc.
    rewrite IH by done. f_equal. apply append_snoc_char.
Qed.

Lemma valid_name_relative (n : string) :
  valid_name n = true → is_absolute n = false.
Proof.
  unfold valid_name. intros [_ Hs%negb_true_iff]%andb_true_iff.
  destruct n as [|c n]; simpl in *; [done |].
  by apply orb_false_iff in Hs as [? _].
Qed.

Lemma Path_valid_name (n : string) : valid_name n = true → Path n = [n].
Proof.
  intros Hv. unfold Path. rewrite (valid_name_relative n Hv).
  unfold valid_name in Hv. apply andb_true_iff in Hv as [Hc Hs%negb_true_iff].
  rewrite split_slash_plain by done. change ("" +:+ n) with n.
  simpl. by rewrite Hc.
Qed.

Lemma joinpath_valid_name (p : path) (n : string) :
  valid_name n = true → p // n = p ++ [n].
Proof.
  intros Hv. unfold joinpath.
  by rewrite (valid_name_relative n Hv), Path_valid_name.
Qed.

Lemma name_snoc (p : path) (n : string) : name (p ++ [n]) = n.
Proof. apply List.last_last. Qed.

Lemma parent_snoc (p : path) (n : string) : parent (p ++ [n]) = p.
Proof. apply List.removelast_last. Qed.

Lemma snoc_not_nil (p : path) (n : string) : p ++ [n] ≠ [].
Proof. by destruct p. Qed.

Lemma stat_snoc (fs : filesystem) (p : path) (n : string) :
  stat fs (p ++ [n]) = fs !! (p ++ [n]).
Proof. unfold stat. case_decide; [by destruct p | done]. Qed.

Lemma onnx_folder_path_snoc (config : Config) (id : string) :
  onnx_folder_path config id = model_folder_path config id ++ ["onnx"].
Proof. reflexivity. Qed.

Lemma Path_absolute_not_nil (s : string) : is_absolute s = true → Path s ≠ [].
Proof. unfold Path. by intros ->. Qed.

Lemma model_folder_path_not_nil (config : Config) (id : string) :
  model_folder_path config id ≠ [].
Proof.
  unfold model_folder_path. unfold joinpath at 1.
  destruct (is_absolute id) eqn:Habs.
  - by apply Path_absolute_not_nil.
  - change (repo_path config // "models") with (repo_path config ++ ["models"]).
    rewrite <- app_assoc. by destruct (repo_path config).
Qed.

(** ** Directory listings *)

Lemma child_name_Some (p q : path) (n : string) :
  child_name p q = Some n ↔ q = p ++ [n].
Proof.
  unfold child_name. split.
  - destruct (drop (length p) q) as [|m [|]] eqn:Hd; try done.
    case_decide as Ht; [|done]. intros [= ->].
    by rewrite <- (take_drop (length p) q), Ht, Hd.
  - intros ->. rewrite drop_app_length, take_app_length.
    by rewrite decide_True.
Qed.

Lemma NoDup_omap_inj {A B} (f : A → option B) (l : list A) :
  (∀ x y z, f x = Some z → f y = Some z → x = y) →
  NoDup l → NoDup (omap f l).
Proof.
  intros Hinj. induction 1 as [|x l Hx Hl IH]; simpl; [constructor |].
  destruct (f x) as [z|] eqn:Hfx; [|done].
  constructor; [|done].
  intros (y & Hy & Hfy)%list_elem_of_omap.
  by rewrite (Hinj x y z Hfx Hfy) in Hx.
Qed.

Lemma elem_of_children (fs : filesystem) (p : path) (n : string) :
  n ∈ children fs p ↔ valid_name n = true ∧ is_Some (fs !! (p ++ [n])).
Proof.
  unfold children. rewrite list_elem_of_filter, list_elem_of_omap.
  rewrite Is_true_true. apply and_iff_compat_l. split.
  - intros (q & Hq & Hn). apply child_name_Some in Hn as ->.
    apply list_elem_of_fmap in Hq as ([q v] & -> & Hq).
    apply elem_of_map_to_list in Hq. by exists v.
  - intros [v Hv]. exists (p ++ [n]). split; [|by apply child_name_Some].
    apply list_elem_of_fmap. exists (p ++ [n], v).
    split; [done | by apply elem_of_map_to_list].
Qed.

Lemma NoDup_children (fs : filesystem) (p : path) : NoDup (children fs p).
Proof.
  unfold children. apply NoDup_filter, NoDup_omap_inj.
  - intros x y z Hx Hy. apply child_name_Some in Hx, Hy. congruence.
  - apply NoDup_fst_map_to_list.
Qed.

Lemma elem_of_listing (rank : string → nat) (fs : filesystem) (p : path) (n : string) :
  n ∈ listing rank fs p ↔ valid_name n = true ∧ is_Some (fs !! (p ++ [n])).
Proof.
  unfold listing. rewrite merge_sort_Permutation. apply elem_of_children.
Qed.

Lemma NoDup_listing (rank : string → nat) (fs : filesystem) (p : path) :
  NoDup (listing rank fs p).
Proof.
  unfold listing. rewrite merge_sort_Permutation. apply NoDup_children.
Qed.

(** ** The monad *)

Lemma bind_Ok {A B} (m : M A) (k : A → M B) (fs : filesystem) (a : A) :
  value (m fs) = Ok a →
  bind m k fs = Outcome (value (k a (disk (m fs)))) (disk (k a (disk (m fs))))
                        (effects (m fs) ++ effects (k a (disk (m fs)))).
Proof. intros H. unfold bind. by rewrite H. Qed.

Lemma bind_Raise {A B} (m : M A) (k : A → M B) (fs : filesystem) (e : exn) :
  value (m fs) = Raise e →
  bind m k fs = Outcome (Raise e) (disk (m fs)) (effects (m fs)).
Proof. intros H. unfold bind. by rewrite H. Qed.

Lemma bind_Outcome_Ok {A B} (m : M A) (k : A → M B) (fs fs' : filesystem)
    (a : A) (evs : list event) :
  m fs = Outcome (Ok a) fs' evs →
  bind m k fs = Outcome (value (k a fs')) (disk (k a fs')) (evs ++ effects (k a fs')).
Proof. intros H. unfold bind. by rewrite H. Qed.

Lemma bind_Outcome_Raise {A B} (m : M A) (k : A → M B) (fs fs' : filesystem)
    (e : exn) (evs : list event) :
  m fs = Outcome (Raise e) fs' evs → bind m k fs = Outcome (Raise e) fs' evs.
Proof. intros H. unfold bind. by rewrite H. Qed.

Lemma bind_Ok_value {A B} (m : M A) (k : A → M B) (fs : filesystem) (a : A) :
  value (m fs) = Ok a → value (bind m k fs) = value (k a (disk (m fs))).
Proof. intros H. by rewrite (bind_Ok m k fs a H). Qed.

Lemma bind_Ok_disk {A B} (m : M A) (k : A → M B) (fs : filesystem) (a : A) :
  value (m fs) = Ok a → disk (bind m k fs) = disk (k a (disk (m fs))).
Proof. intros H. by rewrite (bind_Ok m k fs a H). Qed.

Lemma bind_Ok_effects {A B} (m : M A) (k : A → M B) (fs : filesystem) (a : A) :
  value (m fs) = Ok a →
  effects (bind m k fs) = effects (m fs) ++ effects (k a (disk (m fs))).
Proof. intros H. by rewrite (bind_Ok m k fs a H). Qed.

Lemma bind_Raise_value {A B} (m : M A) (k : A → M B) (fs : filesystem) (e : exn) :
  value (m fs) = Raise e → value (bind m k fs) = Raise e.
Proof. intros H. by rewrite (bind_Raise m k fs e H). Qed.

Lemma bind_Raise_disk {A B} (m : M A) (k : A → M B) (fs : filesystem) (e : exn) :
  value (m fs) = Raise e → disk (bind m k fs) = disk (m fs).
Proof. intros H. by rewrite (bind_Raise m k fs e H). Qed.

Lemma bind_Raise_effects {A B} (m : M A) (k : A → M B) (fs : filesystem) (e : exn) :
  value (m fs) = Raise e → effects (bind m k fs) = effects (m fs).
Proof. intros H. by rewrite (bind_Raise m k fs e H). Qed.

Lemma pushes_app (l k : list event) : pushes (l ++ k) = pushes l ++ pushes k.
Proof. apply omap_app. Qed.

Lemma pushed_trees_app (l k : list event) :
  pushed_trees (l ++ k) = pushed_trees l ++ pushed_trees k.
Proof. apply omap_app. Qed.

(** ** The loop of [upload_model] *)

Lemma move_onnx_files_cons (onnx_folder_path file : path) (files : list path)
    (fs : filesystem) :
  move_onnx_files onnx_folder_path (file :: files) fs =
  bind (move_if_onnx onnx_folder_path file)
       (λ _, move_onnx_files onnx_folder_path files) fs.
Proof. reflexivity. Qed.

Section Loop.

Variable d : path.
Let o : path := d ++ ["onnx"].

Lemma source_not_target (n m : string) : d ++ [n] ≠ o ++ [m].
Proof.
  unfold o. intros H. apply (f_equal length) in H.
  rewrite !length_app in H. simpl in H. lia.
Qed.

Lemma source_not_folder (n : string) : d ++ [n] ≠ d.
Proof.
  intros H. apply (f_equal length) in H. rewrite length_app in H. simpl in H. lia.
Qed.

Lemma target_not_folder (n : string) : o ++ [n] ≠ d.
Proof.
  unfold o. intros H. apply (f_equal length) in H.
  rewrite !length_app in H. simpl in H. lia.
Qed.

Lemma movable_Some (fs : filesystem) (n : string) :
  movable fs d n = true ↔
  (∃ data, fs !! (d ++ [n]) = Some (File data)) ∧ suffix (d ++ [n]) = ".onnx".
Proof.
  unfold movable, is_file_at. rewrite stat_snoc, andb_true_iff, String.eqb_eq.
  apply and_iff_compat_r. destruct (fs !! (d ++ [n])) as [[data|]|]; split;
    try done; try (intros [? [=]]). by exists data.
Qed.

(** One turn of the loop: nothing for an entry that is not a [.onnx] file;
    otherwise the rename either fails, leaving the disk as it was, or puts
    the file under the subfolder. *)
Lemma move_if_onnx_cases (n : string) (fs : filesystem) :
  valid_name n = true →
  let r := move_if_onnx o (d ++ [n]) fs in
  pushes (effects r) = [] ∧ pushed_trees (effects r) = [] ∧
  ((movable fs d n = false ∧ value r = Ok tt ∧ disk r = fs) ∨
   (movable fs d n = true ∧
    ((∃ e, value r = Raise e ∧ disk r = fs) ∨
     (∃ data, fs !! (d ++ [n]) = Some (File data) ∧ value r = Ok tt ∧
              disk r = <[o ++ [n] := File data]> (delete (d ++ [n]) fs))))).
Proof.
  intros Hv. unfold move_if_onnx, mbind, M_bind, bind, path_is_file. simpl.
  rewrite name_snoc, joinpath_valid_name by done.
  fold (movable fs d n). destruct (movable fs d n) eqn:Hm.
  - apply movable_Some in Hm as [[data Hdata] _].
    unfold rename. rewrite stat_snoc, Hdata.
    destruct (stat fs (o ++ [n])) as [[?|]|];
      [destruct (parent_error fs (o ++ [n])) | | destruct (parent_error fs (o ++ [n]))];
      simpl; repeat split; try done; right; split; try done;
      first [ by left; eexists | by right; exists data ].
  - simpl. repeat split; try done. by left.
Qed.

(** Paths that are neither a moved file nor its target keep their entry,
    however the loop ends. *)
Lemma move_onnx_files_frame (L : list string) (fs : filesystem) (q : path) :
  (∀ n, n ∈ L → valid_name n = true) →
  (∀ n, n ∈ L → movable fs d n = true → q ≠ d ++ [n] ∧ q ≠ o ++ [n]) →
  disk (move_onnx_files o ((λ n, d ++ [n]) <$> L) fs) !! q = fs !! q.
Proof.
  revert fs. induction L as [|n L IH]; intros fs Hvalid Hq; [done |].
  rewrite fmap_cons, move_onnx_files_cons.
  destruct (move_if_onnx_cases n fs) as (_ & _ & Hcase);
    [apply Hvalid; left |].
  destruct Hcase as [(Hm & Hval & Hdisk) | (Hm & [(e & Hval & Hdisk) | (data & Hdata & Hval & Hdisk)])].
  - rewrite (bind_Ok_disk _ _ _ _ Hval), Hdisk.
    apply IH; intros m Hin; [apply Hvalid | apply Hq]; by right.
  - by rewrite (bind_Raise_disk _ _ _ _ Hval), Hdisk.
  - rewrite (bind_Ok_disk _ _ _ _ Hval), Hdisk.
    destruct (Hq n) as [Hq1 Hq2]; [left | done |].
    rewrite IH.
    + by rewrite lookup_insert_ne, lookup_delete_ne.
    + intros m Hin. apply Hvalid. by right.
    + intros m Hin Hmm. apply Hq; [by right |].
      apply movable_Some in Hmm as [[data' Hd'] Hsuf]. apply movable_Some.
      split; [|done]. exists data'.
      rewrite lookup_insert_ne in Hd' by (apply not_eq_sym, source_not_target).
      destruct (decide (d ++ [n] = d ++ [m])) as [Heq|Hne].
      * rewrite <- Heq, lookup_delete_eq in Hd'. done.
      * by rewrite lookup_delete_ne in Hd'.
Qed.

(** When the loop runs to its end, every [.onnx] file of the listing has
    left the directory and sits under the subfolder with its contents. *)
Lemma move_onnx_files_moved (L : list string) (fs : filesystem) :
  (∀ n, n ∈ L → valid_name n = true) →
  NoDup L →
  value (move_onnx_files o ((λ n, d ++ [n]) <$> L) fs) = Ok tt →
  ∀ n data, n ∈ L → fs !! (d ++ [n]) = Some (File data) →
    suffix (d ++ [n]) = ".onnx" →
    let fs' := disk (move_onnx_files o ((λ n, d ++ [n]) <$> L) fs) in
    fs' !! (d ++ [n]) = None ∧ fs' !! (o ++ [n]) = Some (File data).
Proof.
  revert fs. induction L as [|m L IH]; intros fs Hvalid Hnd Hok n data Hin Hn Hsuf;
    [by apply elem_of_nil in Hin |].
  apply NoDup_cons in Hnd as [Hm_notin Hnd].
  assert (HvalidL : ∀ k, k ∈ L → valid_name k = true)
    by (intros k Hk; apply Hvalid; by right).
  rewrite fmap_cons, move_onnx_files_cons in *.
  destruct (move_if_onnx_cases m fs) as (_ & _ & Hcase); [apply Hvalid; left |].
  destruct Hcase as [(Hm & Hval & Hdisk) | (Hm & [(e & Hval & Hdisk) | (data' & Hdata & Hval & Hdisk)])].
  - rewrite (bind_Ok_value _ _ _ _ Hval), Hdisk in Hok.
    cbv zeta. rewrite (bind_Ok_disk _ _ _ _ Hval), Hdisk.
    apply elem_of_cons in Hin as [-> | Hin].
    + assert (movable fs d m = true) as Hm'
        by (apply movable_Some; split; [by exists data | done]).
      congruence.
    + by apply IH.
  - by rewrite (bind_Raise_value _ _ _ _ Hval) in Hok.
  - rewrite (bind_Ok_value _ _ _ _ Hval), Hdisk in Hok.
    cbv zeta. rewrite (bind_Ok_disk _ _ _ _ Hval), Hdisk.
    apply elem_of_cons in Hin as [-> | Hin].
    + assert (data' = data) as -> by congruence.
      split.
      * rewrite (move_onnx_files_frame L _ (d ++ [m])); [| done |].
        -- rewrite lookup_insert_ne by (apply not_eq_sym, source_not_target).
           apply lookup_delete_eq.
        -- intros k Hk _. split; [|apply source_not_target].
           intros [_ [= ->]]%app_inj_tail. done.
      * rewrite (move_onnx_files_frame L _ (o ++ [m])); [| done |].
        -- apply lookup_insert_eq.
        -- intros k Hk _. split; [apply not_eq_sym, source_not_target |].
           intros [_ [= ->]]%app_inj_tail. done.
    + apply IH; try done.
      assert (n ≠ m) by (intros ->; done).
      rewrite lookup_insert_ne by (apply not_eq_sym, source_not_target).
      rewrite lookup_delete_ne; [done |].
      intros [_ [= ->]]%app_inj_tail. done.
Qed.

(** The loop never talks to the hub. *)
Lemma move_onnx_files_no_push (L : list string) (fs : filesystem) :
  (∀ n, n ∈ L → valid_name n = true) →
  let r := move_onnx_files o ((λ n, d ++ [n]) <$> L) fs in
  pushes (effects r) = [] ∧ pushed_trees (effects r) = [].
Proof.
  revert fs. induction L as [|m L IH]; intros fs Hvalid; [done |].
  assert (HvalidL : ∀ k, k ∈ L → valid_name k = true)
    by (intros k Hk; apply Hvalid; by right).
  cbv zeta. rewrite fmap_cons, move_onnx_files_cons.
  destruct (move_if_onnx_cases m fs) as (Hp & Ht & _); [apply Hvalid; left |].
  destruct (value (move_if_onnx o (d ++ [m]) fs)) as [[]|e] eqn:Hval.
  - rewrite (bind_Ok_effects _ _ _ _ Hval), pushes_app, pushed_trees_app, Hp, Ht.
    by apply IH.
  - by rewrite (bind_Raise_effects _ _ _ _ Hval).
Qed.

(** With no [.onnx] file in the listing the loop changes nothing and ends
    normally. *)
Lemma move_onnx_files_idle (L : list string) (fs : filesystem) :
  (∀ n, n ∈ L → valid_name n = true) →
  (∀ n, n ∈ L → movable fs d n = false) →
  let r := move_onnx_files o ((λ n, d ++ [n]) <$> L) fs in
  value r = Ok tt ∧ disk r = fs.
Proof.
  induction L as [|m L IH]; intros Hvalid Hidle; [done |].
  cbv zeta. rewrite fmap_cons, move_onnx_files_cons.
  destruct (move_if_onnx_cases m fs) as (_ & _ & Hcase); [apply Hvalid; left |].
  destruct Hcase as [(Hm & Hval & Hdisk) | (Hm & _)].
  - rewrite (bind_Ok_value _ _ _ _ Hval), (bind_Ok_disk _ _ _ _ Hval), Hdisk.
    apply IH; intros k Hk; [apply Hvalid | apply Hidle]; by right.
  - rewrite Hidle in Hm; [done | left].
Qed.

End Loop.

(** ** [upload_model] *)

Lemma mkdir_exist_ok_effects (p : path) (fs : filesystem) :
  effects (mkdir_exist_ok p fs) = [EvMkdir p].
Proof.
  unfold mkdir_exist_ok.
  destruct (stat fs p) as [[]|]; [done | done |].
  by destruct (parent_error fs p).
Qed.

Lemma mkdir_exist_ok_Raise (p : path) (fs : filesystem) (e : exn) :
  value (mkdir_exist_ok p fs) = Raise e → disk (mkdir_exist_ok p fs) = fs.
Proof.
  unfold mkdir_exist_ok.
  destruct (stat fs p) as [[]|]; [done | done |].
  by destruct (parent_error fs p).
Qed.

(** After a successful [mkdir] the directory is there and nothing else has
    changed. *)
Lemma mkdir_exist_ok_Ok (p : path) (fs : filesystem) :
  value (mkdir_exist_ok p fs) = Ok tt →
  is_file_at fs p = false ∧
  is_dir_at (disk (mkdir_exist_ok p fs)) p = true ∧
  ∀ q, q ≠ p → disk (mkdir_exist_ok p fs) !! q = fs !! q.
Proof.
  unfold mkdir_exist_ok, is_file_at, is_dir_at.
  destruct (stat fs p) as [[]|] eqn:Hp; [done | simpl; by rewrite Hp |].
  destruct (parent_error fs p); [done |]. simpl. intros _.
  repeat split.
  - unfold stat in *. case_decide; [done |]. by rewrite lookup_insert_eq.
  - intros q Hq. by rewrite lookup_insert_ne.
Qed.

Lemma iterdir_dir (rank : string → nat) (p : path) (fs : filesystem) :
  is_dir_at fs p = true →
  iterdir rank p fs = Outcome (Ok (entries rank fs p)) fs [EvIterdir p].
Proof.
  unfold iterdir, is_dir_at. by destruct (stat fs p) as [[]|].
Qed.

Lemma iterdir_not_dir (rank : string → nat) (p : path) (fs : filesystem) :
  is_dir_at fs p = false →
  ∃ e, iterdir rank p fs = Outcome (Raise e) fs [EvIterdir p].
Proof.
  unfold iterdir, is_dir_at. destruct (stat fs p) as [[]|]; by eauto.
Qed.

Section Upload.

Variable ext : external.
Variable config : Config.
Variable id : string.

Let d : path := model_folder_path config id.
Let o : path := onnx_folder_path config id.

Local Abbreviation listed fs := (entries (dir_rank ext) fs d).

Lemma upload_try_cases (fs : filesystem) :
  let r := upload_try ext config id fs in
  let mk := mkdir_exist_ok o fs in
  let lp := move_onnx_files o (listed (disk mk)) (disk mk) in
  (∃ e, value mk = Raise e ∧ r = Outcome (Raise e) fs [EvMkdir o]) ∨
  (value mk = Ok tt ∧
   ((∃ e, is_dir_at (disk mk) d = false ∧
          r = Outcome (Raise e) (disk mk) [EvMkdir o; EvIterdir d]) ∨
    (is_dir_at (disk mk) d = true ∧
     ((∃ e, value lp = Raise e ∧
            r = Outcome (Raise e) (disk lp)
                        ([EvMkdir o; EvIterdir d] ++ effects lp)) ∨
      (value lp = Ok tt ∧
       r = Outcome
             (match hf_upload_folder ext (hf_token config) (str_path o) id
                      "onnx" (disk lp) with
              | Ok _ => Ok None
              | Raise e => Raise e
              end)
             (disk lp)
             ([EvMkdir o; EvIterdir d] ++ effects lp ++
              [EvUploadFolder (hf_token config) (str_path o) id "onnx"
                              (disk lp)])))))).
Proof.
  cbv zeta. unfold upload_try, mbind, M_bind. fold d o.
  destruct (value (mkdir_exist_ok o fs)) as [[]|e] eqn:Hmk.
  - right. split; [done |].
    rewrite (bind_Ok _ _ _ _ Hmk), mkdir_exist_ok_effects.
    set (fs1 := disk (mkdir_exist_ok o fs)).
    destruct (is_dir_at fs1 d) eqn:Hd.
    + right. split; [done |].
      rewrite (bind_Outcome_Ok _ _ _ _ _ _ (iterdir_dir _ _ _ Hd)).
      cbn [value disk effects]. fold (entries (dir_rank ext) fs1 d).
      destruct (value (move_onnx_files o (listed fs1) fs1)) as [[]|e] eqn:Hlp.
      * right. split; [done |].
        rewrite (bind_Ok _ _ _ _ Hlp). unfold bind, upload_folder, ret.
        cbn [value disk effects].
        destruct (hf_upload_folder ext (hf_token config) (str_path o) id "onnx"
                    (disk (move_onnx_files o (listed fs1) fs1)));
          cbn [value disk effects]; by rewrite ?app_nil_r.
      * left. exists e. split; [done |].
        by rewrite (bind_Raise _ _ _ _ Hlp).
    + left. destruct (iterdir_not_dir (dir_rank ext) d fs1 Hd) as [e He].
      exists e. split; [done |].
      by rewrite (bind_Outcome_Raise _ _ _ _ _ _ He).
  - left. exists e. split; [done |].
    by rewrite (bind_Raise _ _ _ _ Hmk), (mkdir_exist_ok_Raise _ _ _ Hmk),
      mkdir_exist_ok_effects.
Qed.

Lemma o_snoc : o = d ++ ["onnx"].
Proof. reflexivity. Qed.

Lemma d_not_nil : d ≠ [].
Proof. apply model_folder_path_not_nil. Qed.

Lemma d_not_o : d ≠ o.
Proof. rewrite o_snoc. apply not_eq_sym, source_not_folder. Qed.

Lemma stat_d (fs : filesystem) : stat fs d = fs !! d.
Proof. unfold stat. by rewrite decide_False by apply d_not_nil. Qed.

Lemma stat_o (fs : filesystem) : stat fs o = fs !! o.
Proof. rewrite o_snoc. apply stat_snoc. Qed.

Lemma listed_valid (fs : filesystem) (n : string) :
  n ∈ listing (dir_rank ext) fs d → valid_name n = true.
Proof. by intros [? _]%elem_of_listing. Qed.

Lemma upload_loop_frame (fs : filesystem) (q : path) :
  (∀ n, valid_name n = true → movable fs d n = true →
        q ≠ d ++ [n] ∧ q ≠ o ++ [n]) →
  disk (move_onnx_files o (listed fs) fs) !! q = fs !! q.
Proof.
  intros Hq. apply (move_onnx_files_frame d); [apply listed_valid |].
  intros n Hn. apply Hq. by eapply listed_valid.
Qed.

Lemma upload_loop_moved (fs : filesystem) (n data : string) :
  value (move_onnx_files o (listed fs) fs) = Ok tt →
  valid_name n = true → fs !! (d ++ [n]) = Some (File data) →
  suffix (d ++ [n]) = ".onnx" →
  disk (move_onnx_files o (listed fs) fs) !! (d ++ [n]) = None ∧
  disk (move_onnx_files o (listed fs) fs) !! (o ++ [n]) = Some (File data).
Proof.
  intros Hok Hv Hdata Hsuf.
  apply (move_onnx_files_moved d (listing (dir_rank ext) fs d) fs);
    [apply listed_valid | apply NoDup_listing | done | | done | done].
  apply elem_of_listing. split; [done | by eexists].
Qed.

Lemma upload_loop_no_push (fs : filesystem) :
  pushes (effects (move_onnx_files o (listed fs) fs)) = [] ∧
  pushed_trees (effects (move_onnx_files o (listed fs) fs)) = [].
Proof. apply (move_onnx_files_no_push d), listed_valid. Qed.

Lemma upload_loop_idle (fs : filesystem) :
  (∀ n, movable fs d n = false) →
  value (move_onnx_files o (listed fs) fs) = Ok tt ∧
  disk (move_onnx_files o (listed fs) fs) = fs.
Proof.
  intros Hidle. apply (move_onnx_files_idle d); [apply listed_valid | done].
Qed.

(** What the [try] block did with the hub: either nothing, and it raised,
    or one upload, after the subfolder was made and the loop ran to its end. *)
Lemma upload_try_pushes (fs : filesystem) :
  let r := upload_try ext config id fs in
  let mk := mkdir_exist_ok o fs in
  let lp := move_onnx_files o (listed (disk mk)) (disk mk) in
  (pushes (effects r) = [] ∧ pushed_trees (effects r) = [] ∧
   ∃ e, value r = Raise e) ∨
  (value mk = Ok tt ∧ is_dir_at (disk mk) d = true ∧ value lp = Ok tt ∧
   pushes (effects r) = [(str_path o, id, "onnx")] ∧
   pushed_trees (effects r) = [disk lp] ∧ disk r = disk lp ∧
   value r = match hf_upload_folder ext (hf_token config) (str_path o) id
                     "onnx" (disk lp) with
             | Ok _ => Ok None
             | Raise e => Raise e
             end).
Proof.
  cbv zeta.
  destruct (upload_loop_no_push (disk (mkdir_exist_ok o fs))) as [Hp Ht].
  destruct (upload_try_cases fs)
    as [(e & _ & ->) | (Hmk & [(e & _ & ->) | (Hd & [(e & _ & ->) | (Hlp & ->)])])];
    cbn [value disk effects].
  - left. by eauto.
  - left. by eauto.
  - left. rewrite pushes_app, pushed_trees_app, Hp, Ht. by eauto.
  - right. rewrite !pushes_app, !pushed_trees_app, Hp, Ht. done.
Qed.

(** The [try] block leaves the entry of the output directory itself alone. *)
Lemma upload_try_keeps_folder (fs : filesystem) :
  disk (upload_try ext config id fs) !! d = fs !! d.
Proof.
  assert (Hmkd : disk (mkdir_exist_ok o fs) !! d = fs !! d).
  { destruct (value (mkdir_exist_ok o fs)) as [[]|e] eqn:Hmk.
    - apply mkdir_exist_ok_Ok in Hmk as (_ & _ & Hframe). apply Hframe, d_not_o.
    - by rewrite (mkdir_exist_ok_Raise _ _ _ Hmk). }
  assert (Hlpd : disk (move_onnx_files o (listed (disk (mkdir_exist_ok o fs)))
                         (disk (mkdir_exist_ok o fs))) !! d = fs !! d).
  { rewrite <- Hmkd. apply upload_loop_frame.
    intros n _ _. split; [apply not_eq_sym, source_not_folder |].
    apply not_eq_sym, target_not_folder. }
  destruct (upload_try_cases fs)
    as [(e & _ & ->) | (Hmk & [(e & _ & ->) | (Hd & [(e & _ & ->) | (Hlp & ->)])])];
    by cbn [value disk effects].
Qed.

(** [upload_model] in terms of its [try] block: an exception becomes the
    returned text, and the removal of the output directory comes last. *)
Lemma upload_model_eq (fs : filesystem) :
  let r := upload_try ext config id fs in
  upload_model ext config id fs =
  Outcome (match value r with
           | Ok a => Ok a
           | Raise e => Ok (Some (str_exn e))
           end)
          (disk (rmtree d true (disk r)))
          (effects r ++ [EvRmtree d]).
Proof.
  cbv zeta. unfold upload_model, try_finally, try_except. fold d.
  destruct (value (upload_try ext config id fs)) as [a|e] eqn:Hr;
    cbn [value disk effects ret]; rewrite ?app_nil_r;
    unfold rmtree; destruct (stat _ d) as [[]|]; cbn [value disk effects];
    by rewrite ?Hr.
Qed.

Lemma rmtree_ignore_not_dir (p : path) (fs : filesystem) :
  p ≠ [] → is_dir_at (disk (rmtree p true fs)) p = false.
Proof.
  intros Hp. unfold rmtree, is_dir_at.
  destruct (stat fs p) as [[data|]|] eqn:Hs; cbn [disk]; rewrite ?Hs; try done.
  unfold stat. rewrite decide_False by done.
  rewrite map_lookup_filter_None_2; [done |]. right. intros v _ Hnot.
  apply Hnot. by unfold under.
Qed.

Lemma rmtree_dir_gone (p q : path) (b : bool) (fs : filesystem) :
  is_dir_at fs p = true → under p q → disk (rmtree p b fs) !! q = None.
Proof.
  unfold rmtree, is_dir_at. destruct (stat fs p) as [[data|]|]; try done.
  intros _ Hq. cbn [disk]. apply map_lookup_filter_None_2. right.
  intros v _ Hnot. by apply Hnot.
Qed.

(** After a successful [mkdir] of the subfolder, what the loop can move is
    what could be moved before, and never the subfolder itself. *)
Lemma movable_after_mkdir (fs : filesystem) (n : string) :
  value (mkdir_exist_ok o fs) = Ok tt →
  movable (disk (mkdir_exist_ok o fs)) d n = true →
  d ++ [n] ≠ o ∧ movable fs d n = true.
Proof.
  intros (_ & Hdir & Hframe)%mkdir_exist_ok_Ok Hm.
  apply movable_Some in Hm as [[data Hdata] Hsuf].
  assert (d ++ [n] ≠ o) as Hne.
  { intros Heq. unfold is_dir_at in Hdir. rewrite Heq in Hdata.
    by rewrite stat_o, Hdata in Hdir. }
  split; [done |]. apply movable_Some. split; [|done].
  exists data. by rewrite <- Hframe.
Qed.

(** C3 (as amended).  Whenever [upload_model] gets as far as the upload,
    the tree it hands over holds the subfolder, has every top-level regular
    file with suffix [.onnx] relocated into it with its contents, and agrees
    with the initial tree everywhere else: entries without the suffix and
    everything inside subdirectories are where they were. *)
Theorem upload_model_relocates_onnx_files (fs tree : filesystem) :
  tree ∈ pushed_trees (effects (upload_model ext config id fs)) →
  is_dir_at tree o = true ∧
  (∀ n data, valid_name n = true →
     fs !! (d ++ [n]) = Some (File data) → suffix (d ++ [n]) = ".onnx" →
     tree !! (d ++ [n]) = None ∧ tree !! (o ++ [n]) = Some (File data)) ∧
  (∀ q, q ≠ o →
     (∀ n, valid_name n = true → movable fs d n = true →
           q ≠ d ++ [n] ∧ q ≠ o ++ [n]) →
     tree !! q = fs !! q).
Proof.
  rewrite upload_model_eq. cbn [effects]. rewrite pushed_trees_app, app_nil_r.
  destruct (upload_try_pushes fs) as [(_ & -> & _) | (Hmk & Hd & Hlp & _ & -> & _)];
    [by intros ?%elem_of_nil |].
  intros ->%list_elem_of_singleton.
  pose proof (mkdir_exist_ok_Ok _ _ Hmk) as (Hnofile & Hdir & Hframe).
  set (fs1 := disk (mkdir_exist_ok o fs)) in *.
  split; [|split].
  - unfold is_dir_at in *. rewrite stat_o in *.
    rewrite upload_loop_frame; [done |].
    intros n _ Hm.
    split; [apply not_eq_sym; by apply (movable_after_mkdir fs n) |].
    apply not_eq_sym, source_not_folder.
  - intros n data Hv Hdata Hsuf.
    assert (d ++ [n] ≠ o) as Hne.
    { intros Heq. unfold is_file_at in Hnofile. rewrite Heq in Hdata.
      by rewrite stat_o, Hdata in Hnofile. }
    apply upload_loop_moved; [done | done | by rewrite Hframe | done].
  - intros q Hq Hfree.
    rewrite upload_loop_frame; [by apply Hframe |].
    intros n Hv Hm. apply Hfree; [done |].
    by apply (movable_after_mkdir fs n).
Qed.

(** C6.  When [upload_model] reports success, the hub was called exactly
    once, for the repository named by the input model identifier, with the
    subfolder as source and ["onnx"] as destination, and it accepted. *)
Theorem upload_model_success_pushes_once (fs : filesystem) :
  value (upload_model ext config id fs) = Ok None →
  pushes (effects (upload_model ext config id fs)) = [(str_path o, id, "onnx")] ∧
  ∃ tree, pushed_trees (effects (upload_model ext config id fs)) = [tree] ∧
          hf_upload_folder ext (hf_token config) (str_path o) id "onnx" tree = Ok tt.
Proof.
  rewrite upload_model_eq. cbn [value effects].
  rewrite pushes_app, pushed_trees_app, !app_nil_r.
  destruct (upload_try_pushes fs)
    as [(_ & _ & e & ->) | (_ & _ & _ & -> & -> & _ & ->)]; [done |].
  intros Hval. split; [done |]. eexists. split; [done |].
  by destruct (hf_upload_folder _ _ _ _ _ _) as [[]|].
Qed.

(** C4.  [upload_model] never raises: it returns [None] or an error text.
    Its last act is the removal of the output directory, whose own failure
    is swallowed; afterwards no directory stands at that path, and if one
    stood there before the call, nothing at or below it is left. *)
Theorem upload_model_removes_output_directory (fs : filesystem) :
  let r := upload_model ext config id fs in
  (∃ v, value r = Ok v) ∧
  (∃ evs, effects r = evs ++ [EvRmtree d]) ∧
  is_dir_at (disk r) d = false ∧
  (is_dir_at fs d = true → ∀ q, under d q → disk r !! q = None).
Proof.
  cbv zeta. rewrite upload_model_eq. cbn [value disk effects].
  split; [|split; [|split]].
  - destruct (value (upload_try ext config id fs)); by eauto.
  - by eauto.
  - apply rmtree_ignore_not_dir, d_not_nil.
  - intros Hd q Hq. apply rmtree_dir_gone; [|done].
    unfold is_dir_at in *. rewrite stat_d in *.
    by rewrite upload_try_keeps_folder.
Qed.

(** C10 (as amended).  For an output directory that exists, holds no
    regular file with suffix [.onnx] and no regular file in the place of the
    subfolder, [upload_model] makes the subfolder when it is missing,
    uploads it although nothing was moved into it, and reports success
    exactly when the hub accepts. *)
Theorem upload_model_no_onnx_files_still_pushes (fs : filesystem) :
  is_dir_at fs d = true →
  is_file_at fs o = false →
  (∀ n, movable fs d n = false) →
  let r := upload_model ext config id fs in
  let tree := if is_dir_at fs o then fs else <[o := Dir]> fs in
  is_dir_at tree o = true ∧
  pushes (effects r) = [(str_path o, id, "onnx")] ∧
  pushed_trees (effects r) = [tree] ∧
  value r = match hf_upload_folder ext (hf_token config) (str_path o) id
                    "onnx" tree with
            | Ok _ => Ok None
            | Raise e => Ok (Some (str_exn e))
            end.
Proof.
  intros Hd Hnofile Hidle. cbv zeta.
  assert (mkdir_exist_ok o fs =
          Outcome (Ok tt) (if is_dir_at fs o then fs else <[o := Dir]> fs)
                  [EvMkdir o]) as Hmk.
  { unfold mkdir_exist_ok, is_dir_at, is_file_at, parent_error in *.
    destruct (stat fs o) as [[data|]|]; [done | done |].
    rewrite o_snoc, parent_snoc.
    by destruct (stat fs d) as [[data|]|]. }
  set (tree := if is_dir_at fs o then fs else <[o := Dir]> fs) in *.
  assert (∀ q, q ≠ o → tree !! q = fs !! q) as Hframe.
  { intros q Hq. unfold tree. destruct (is_dir_at fs o); [done |].
    by rewrite lookup_insert_ne. }
  assert (is_dir_at tree o = true) as Hdir.
  { unfold tree. destruct (is_dir_at fs o) eqn:Ho; [done |].
    unfold is_dir_at. by rewrite stat_o, lookup_insert_eq. }
  assert (is_dir_at tree d = true) as Hd'.
  { unfold is_dir_at in *. rewrite stat_d in *. by rewrite Hframe by apply d_not_o. }
  assert (∀ n, movable tree d n = false) as Hidle'.
  { intros n. apply not_true_is_false. intros Hm.
    apply movable_Some in Hm as [[data Hdata] Hsuf].
    destruct (decide (d ++ [n] = o)) as [Heq|Hne].
    - unfold is_dir_at in Hdir. rewrite Heq in Hdata.
      by rewrite stat_o, Hdata in Hdir.
    - rewrite Hframe in Hdata by done.
      assert (movable fs d n = true) as Hm'
        by (apply movable_Some; split; [by exists data | done]).
      by rewrite Hidle in Hm'. }
  destruct (upload_loop_idle tree Hidle') as [Hlpv Hlpd].
  destruct (upload_loop_no_push tree) as [Hp Ht].
  split; [done |].
  rewrite upload_model_eq. cbn [value effects].
  rewrite pushes_app, pushed_trees_app, !app_nil_r.
  destruct (upload_try_cases fs)
    as [(e' & He' & _) | (_ & [(e' & Hnd & _) | (_ & [(e' & Hlp & _) | (_ & ->)])])].
  - by rewrite Hmk in He'.
  - rewrite Hmk in Hnd. cbn [disk] in Hnd. congruence.
  - rewrite Hmk in Hlp. cbn [disk] in Hlp. congruence.
  - rewrite Hmk. cbn [value disk effects].
    rewrite !pushes_app, !pushed_trees_app, Hp, Ht, Hlpd.
    repeat split. by destruct (hf_upload_folder _ _ _ _ _ _) as [[]|].
Qed.

End Upload.

(** ** [_get_ref_type] *)

Section Bootstrap.

Variable ext : external.
Variable config : Config.

(** C5.  Reference-type resolution never raises and leaves the disk alone.
    It answers with the tag reference type, which the archive address
    spells [tags], when the probe of the tag archive reports status 200, and
    with the branch reference type, spelled [heads], whenever the probe
    raises or reports another status. *)
Theorem get_ref_type_tag_or_branch (fs : filesystem) :
  let r := _get_ref_type ext config fs in
  let probe := urlopen_code ext (tag_url config) in
  (∃ kind, value r = Ok (ref_segment kind)) ∧
  disk r = fs ∧
  (probe = Ok 200%Z → value r = Ok (ref_segment Tag)) ∧
  (∀ e, probe = Raise e → value r = Ok (ref_segment Branch)) ∧
  (∀ code, probe = Ok code → code ≠ 200%Z → value r = Ok (ref_segment Branch)).
Proof.
  cbv zeta.
  unfold _get_ref_type, try_except, mbind, M_bind, bind, urlopen_getcode,
    logger_warning, ret.
  cbn [value disk effects].
  destruct (urlopen_code ext (tag_url config)) as [code|e] eqn:Hprobe;
    cbn [value disk effects].
  - destruct (code =? 200)%Z eqn:Hcode.
    + apply Z.eqb_eq in Hcode as ->.
      repeat split; [by exists Tag | intros; congruence ..].
    + apply Z.eqb_neq in Hcode.
      repeat split; [by exists Branch | intros; congruence ..].
  - repeat split; [by exists Branch | intros; congruence ..].
Qed.

Lemma get_ref_type_Ok (fs : filesystem) :
  ∃ ref_type, value (_get_ref_type ext config fs) = Ok ref_type ∧
              disk (_get_ref_type ext config fs) = fs.
Proof.
  unfold _get_ref_type, try_except, mbind, M_bind, bind, urlopen_getcode,
    logger_warning, ret.
  cbn [value disk effects].
  destruct (urlopen_code ext (tag_url config)) as [code|e];
    cbn [value disk effects]; by eauto.
Qed.

(** ** [setup_repository] *)

(** C8.  When the checkout path exists, [setup_repository] returns at once:
    its only act is the existence test, nothing on disk changes, and a
    second call does the same again. *)
Theorem setup_repository_existing_checkout_noop (fs : filesystem) :
  exists_at fs (repo_path config) = true →
  setup_repository ext config fs =
    Outcome (Ok tt) fs [EvExists (repo_path config)] ∧
  setup_repository ext config (disk (setup_repository ext config fs)) =
    setup_repository ext config fs.
Proof.
  intros Hex.
  assert (setup_repository ext config fs =
          Outcome (Ok tt) fs [EvExists (repo_path config)]) as Heq.
  { unfold setup_repository, mbind, M_bind, bind, path_exists, ret.
    cbn [value disk effects]. rewrite Hex. done. }
  split; [done |]. by rewrite Heq.
Qed.

(** What [unlink] with [missing_ok] leaves at its path. *)
Lemma unlink_missing_ok_after (p : path) (fs : filesystem) :
  let u := unlink p true fs in
  effects u = [EvUnlink p] ∧
  is_file_at (disk u) p = false ∧
  (value u = Ok tt → exists_at (disk u) p = false) ∧
  (∀ e, value u = Raise e → exn_class e ≠ "RuntimeError").
Proof.
  cbv zeta. unfold unlink, is_file_at, exists_at.
  destruct (stat fs p) as [[data|]|] eqn:Hp; cbn [value disk effects].
  - assert (p ≠ []) as Hne.
    { intros ->. unfold stat in Hp. by rewrite decide_True in Hp. }
    unfold stat. rewrite decide_False, lookup_delete_eq by done.
    repeat split; done.
  - rewrite Hp. repeat split; try done. by intros e [= <-].
  - destruct (stat fs (parent p)) as [[data|]|]; cbn [value disk effects];
      rewrite Hp; repeat split; try done.
    by intros e [= <-].
Qed.

Lemma urlretrieve_effects (url : string) (dest : path) (fs : filesystem) :
  effects (urlretrieve ext url dest fs) = [EvUrlretrieve url dest].
Proof.
  unfold urlretrieve.
  destruct (urlretrieve_fetch ext url); [| done |];
    by destruct (write_file dest _ fs).
Qed.

Lemma setup_try_downloads (url : string) (dest : path) (fs : filesystem) :
  EvUrlretrieve url dest ∈ effects (setup_try ext config url dest fs).
Proof.
  unfold setup_try, mbind, M_bind.
  destruct (value (urlretrieve ext url dest fs)) as [[]|e] eqn:Hv.
  - rewrite (bind_Ok_effects _ _ _ _ Hv), urlretrieve_effects. by left.
  - rewrite (bind_Raise_effects _ _ _ _ Hv), urlretrieve_effects. by left.
Qed.

(** Without a checkout, [setup_repository] is the reference-type probe
    followed by the guarded download, with the removal of the archive last. *)
Lemma setup_repository_eq (fs : filesystem) :
  exists_at fs (repo_path config) = false →
  ∃ ref_type,
    setup_repository ext config fs =
    let body := try_except
                  (setup_try ext config (archive_url config ref_type)
                             (archive_path config))
                  (λ e, raise (RuntimeError ("Failed to setup repository: "
                                             +:+ str_exn e))) fs in
    let u := unlink (archive_path config) true (disk body) in
    Outcome (match value u with Ok _ => value body | Raise e => Raise e end)
            (disk u)
            ([EvExists (repo_path config)] ++
             effects (_get_ref_type ext config fs) ++ effects body ++ effects u).
Proof.
  intros Hex. destruct (get_ref_type_Ok fs) as (ref_type & Href & Hdisk).
  exists ref_type. cbv zeta.
  unfold setup_repository, mbind, M_bind.
  assert (path_exists (repo_path config) fs =
          Outcome (Ok false) fs [EvExists (repo_path config)]) as Hpe
    by (unfold path_exists; by rewrite Hex).
  rewrite (bind_Outcome_Ok _ _ _ _ _ _ Hpe).
  rewrite (bind_Ok _ _ _ _ Href), Hdisk.
  unfold try_finally. cbn [value disk effects]. reflexivity.
Qed.

(** C7.  When the checkout path does not exist, [setup_repository] goes on
    to the download, and however it ends no regular file is left at the
    archive path; when it returns or raises the setup error, nothing at all
    is left there.  Its last act is the removal of the archive. *)
Theorem setup_repository_removes_archive (fs : filesystem) :
  exists_at fs (repo_path config) = false →
  let r := setup_repository ext config fs in
  (∃ ref_type, EvUrlretrieve (archive_url config ref_type) (archive_path config)
               ∈ effects r) ∧
  (∃ evs, effects r = evs ++ [EvUnlink (archive_path config)]) ∧
  is_file_at (disk r) (archive_path config) = false ∧
  (value r = Ok tt ∨ (∃ msg, value r = Raise (RuntimeError msg)) →
   exists_at (disk r) (archive_path config) = false).
Proof.
  intros Hex. cbv zeta.
  destruct (setup_repository_eq fs Hex) as (ref_type & ->).
  cbn [value disk effects].
  set (body := try_except
                 (setup_try ext config (archive_url config ref_type)
                            (archive_path config)) _ fs).
  destruct (unlink_missing_ok_after (archive_path config) (disk body))
    as (Hev & Hfile & Hgone & Hcls).
  split; [|split; [|split]].
  - exists ref_type. apply elem_of_app. right. apply elem_of_app. right.
    apply elem_of_app. left. unfold body, try_except.
    pose proof (setup_try_downloads (archive_url config ref_type)
                  (archive_path config) fs) as Hdl.
    destruct (value (setup_try _ _ _ _ fs)); cbn [effects]; [done |].
    apply elem_of_app. by left.
  - rewrite Hev.
    exists ([EvExists (repo_path config)]
            ++ effects (_get_ref_type ext config fs) ++ effects body).
    by rewrite <- !app_assoc.
  - done.
  - destruct (value (unlink (archive_path config) true (disk body))) as [[]|e] eqn:Hu.
    + intros _. by apply Hgone.
    + intros [[=] | [msg [= ->]]].
      pose proof (Hcls _ eq_refl) as Hc. contradict Hc. reflexivity.
Qed.

End Bootstrap.

(** ** [convert_model] *)

Section Conversion.

Variable ext : external.
Variable config : Config.

(** C1.  When the converter is launched and ends, [convert_model] reports
    success exactly when its exit code is zero, and in both cases hands back
    what was captured from its standard error. *)
Theorem convert_model_reports_exit_status (id : string) (fs fs' : filesystem)
    (proc : completed_process) :
  run_process ext (convert_args (sys_executable ext) id) (repo_path config) fs
    = (Ok proc, fs') →
  value (convert_model ext config id fs)
    = Ok ((returncode proc =? 0)%Z, Some (stderr proc)).
Proof.
  intros Hrun.
  unfold convert_model, try_except, mbind, M_bind, bind, subprocess_run, ret.
  rewrite Hrun. cbn [value disk effects].
  by destruct (returncode proc =? 0)%Z.
Qed.

(** C9.  When launching the converter raises, [convert_model] does not:
    it returns failure with the text of the exception. *)
Theorem convert_model_launch_exception (id : string) (fs fs' : filesystem)
    (e : exn) :
  run_process ext (convert_args (sys_executable ext) id) (repo_path config) fs
    = (Raise e, fs') →
  value (convert_model ext config id fs) = Ok (false, Some (str_exn e)).
Proof.
  intros Hrun.
  unfold convert_model, try_except, mbind, M_bind, bind, subprocess_run, ret.
  rewrite Hrun. by cbn [value disk effects].
Qed.

End Conversion.

(** ** [Config.from_env] *)

Section Configuration.

Variable ext : external.

(** C2.  When neither the session token nor the secret token is usable,
    [from_env] raises and never returns a configuration.  It asks the
    identity service only as the resolution of the account name requires:
    not at all when [SPACE_AUTHOR_NAME] is set, once (with the absent secret
    token) when it is not.  The exception is the missing-token error unless
    that one lookup raised, whose exception is then passed on. *)
Theorem from_env_missing_token_fails (env : environment) (fs : filesystem) :
  truthy (session_state env !! "user_hf_token") = false →
  truthy (secrets env !! "HF_TOKEN") = false →
  let r := from_env ext env fs in
  let author := environ env !! "SPACE_AUTHOR_NAME" in
  let answer := whoami_name ext (secrets env !! "HF_TOKEN") in
  (∃ e, value r = Raise e) ∧
  disk r = fs ∧
  effects r = (if truthy author then [] else [EvWhoami (secrets env !! "HF_TOKEN")]) ∧
  value r = Raise (if truthy author then ValueError "HF_TOKEN must be set"
                   else match answer with
                        | Ok _ => ValueError "HF_TOKEN must be set"
                        | Raise e => e
                        end).
Proof.
  intros Huser Hsys. cbv zeta.
  unfold from_env, py_or, mbind, M_bind, bind, whoami, ret, raise.
  rewrite Huser, Hsys. cbn [negb].
  destruct (truthy (environ env !! "SPACE_AUTHOR_NAME")); cbn [value disk effects].
  - repeat split; by eauto.
  - destruct (whoami_name ext (secrets env !! "HF_TOKEN")) as [user|e];
      cbn [value disk effects]; repeat split; by eauto.
Qed.

End Configuration.

(** * The claims on the sample worlds *)

(** Closed facts about the sample worlds are settled by running the
    decision procedure of the proposition. *)
Ltac decide_by_computation :=
  match goal with
  | |- ?P => apply (bool_decide_eq_true_1 P); vm_compute; reflexivity
  end.

(** A conjunction of closed equations, each settled by evaluation. *)
Ltac evaluate_each :=
  repeat match goal with |- _ ∧ _ => split end; vm_compute; reflexivity.

Lemma convert_model_reports_exit_status_witness :
  run_process sample_ext (convert_args (sys_executable sample_ext) "org/model-x")
              (repo_path sample_config) checkout_fs
    = (Ok (CompletedProcess 0 "" ""), checkout_fs) ∧
  value (convert_model sample_ext sample_config "org/model-x" checkout_fs)
    = Ok (true, Some "").
Proof.
  split; [reflexivity |].
  exact (convert_model_reports_exit_status sample_ext sample_config "org/model-x"
           checkout_fs checkout_fs (CompletedProcess 0 "" "") eq_refl).
Defined.

Lemma convert_model_launch_exception_witness :
  run_process failing_ext (convert_args (sys_executable failing_ext) "org/model-x")
              (repo_path sample_config) fresh_fs
    = (Raise (Exn "FileNotFoundError" "No such file or directory"), fresh_fs) ∧
  value (convert_model failing_ext sample_config "org/model-x" fresh_fs)
    = Ok (false, Some "No such file or directory").
Proof.
  split; [reflexivity |].
  exact (convert_model_launch_exception failing_ext sample_config "org/model-x"
           fresh_fs fresh_fs (Exn "FileNotFoundError" "No such file or directory")
           eq_refl).
Defined.

Lemma from_env_missing_token_fails_witness :
  truthy (session_state no_token_env !! "user_hf_token") = false ∧
  truthy (secrets no_token_env !! "HF_TOKEN") = false ∧
  effects (from_env failing_ext no_token_env fresh_fs) = [EvWhoami None] ∧
  value (from_env failing_ext no_token_env fresh_fs)
    = Raise (Exn "HTTPError" "401 Unauthorized") ∧
  effects (from_env failing_ext no_token_author_env fresh_fs) = [] ∧
  value (from_env failing_ext no_token_author_env fresh_fs)
    = Raise (ValueError "HF_TOKEN must be set").
Proof.
  split; [reflexivity |]. split; [reflexivity |].
  destruct (from_env_missing_token_fails failing_ext no_token_env fresh_fs
              eq_refl eq_refl) as (_ & _ & Heff & Hval).
  destruct (from_env_missing_token_fails failing_ext no_token_author_env fresh_fs
              eq_refl eq_refl) as (_ & _ & Heff' & Hval').
  split; [exact Heff |]. split; [exact Hval |].
  split; [exact Heff' | exact Hval'].
Defined.

Lemma get_ref_type_tag_or_branch_witness :
  urlopen_code failing_ext (tag_url sample_config)
    = Raise (Exn "HTTPError" "HTTP Error 404: Not Found") ∧
  value (_get_ref_type failing_ext sample_config fresh_fs) = Ok "heads".
Proof.
  split; [reflexivity |].
  destruct (get_ref_type_tag_or_branch failing_ext sample_config fresh_fs)
    as (_ & _ & _ & Hraise & _).
  exact (Hraise _ eq_refl).
Defined.

Lemma setup_repository_existing_checkout_noop_witness :
  exists_at checkout_fs (repo_path sample_config) = true ∧
  setup_repository sample_ext sample_config checkout_fs
    = Outcome (Ok tt) checkout_fs [EvExists ["transformers.js"]].
Proof.
  assert (exists_at checkout_fs (repo_path sample_config) = true) as Hex
    by (vm_compute; reflexivity).
  split; [exact Hex |].
  exact (proj1 (setup_repository_existing_checkout_noop sample_ext sample_config
                  checkout_fs Hex)).
Defined.

Lemma setup_repository_removes_archive_witness :
  exists_at fresh_fs (repo_path sample_config) = false ∧
  value (setup_repository failing_ext sample_config fresh_fs)
    = Raise (RuntimeError "Failed to setup repository: retrieval incomplete") ∧
  exists_at (disk (setup_repository failing_ext sample_config fresh_fs))
            (archive_path sample_config) = false.
Proof.
  assert (exists_at fresh_fs (repo_path sample_config) = false) as Hex
    by (vm_compute; reflexivity).
  assert (value (setup_repository failing_ext sample_config fresh_fs)
          = Raise (RuntimeError "Failed to setup repository: retrieval incomplete"))
    as Hval by (vm_compute; reflexivity).
  split; [exact Hex |]. split; [exact Hval |].
  destruct (setup_repository_removes_archive failing_ext sample_config fresh_fs Hex)
    as (_ & _ & _ & Hgone).
  apply Hgone. right. eexists. exact Hval.
Defined.

Lemma upload_model_relocates_onnx_files_witness :
  converted_pushed
    ∈ pushed_trees (effects (upload_model sample_ext sample_config "org/model-x"
                                          converted_fs)) ∧
  converted_pushed !! (sample_model_dir ++ ["model.onnx"]) = None ∧
  converted_pushed !! (sample_model_dir ++ ["onnx"; "model.onnx"])
    = Some (File "weights") ∧
  converted_pushed !! (sample_model_dir ++ ["config.json"])
    = converted_fs !! (sample_model_dir ++ ["config.json"]) ∧
  converted_pushed !! (sample_model_dir ++ ["sub"; "deep.onnx"])
    = converted_fs !! (sample_model_dir ++ ["sub"; "deep.onnx"]).
Proof.
  assert (converted_pushed
            ∈ pushed_trees (effects (upload_model sample_ext sample_config
                                                  "org/model-x" converted_fs)))
    as Hin by decide_by_computation.
  split; [exact Hin |].
  destruct (upload_model_relocates_onnx_files sample_ext sample_config
              "org/model-x" converted_fs converted_pushed Hin)
    as (_ & Hmoved & _).
  destruct (Hmoved "model.onnx" "weights") as [Hsrc Hdst];
    [vm_compute; reflexivity .. |].
  split; [exact Hsrc |]. split; [exact Hdst |].
  split; vm_compute; reflexivity.
Defined.

Lemma upload_model_success_pushes_once_witness :
  value (upload_model sample_ext sample_config "org/model-x" converted_fs)
    = Ok None ∧
  pushes (effects (upload_model sample_ext sample_config "org/model-x"
                                converted_fs))
    = [("transformers.js/models/org/model-x/onnx", "org/model-x", "onnx")].
Proof.
  assert (value (upload_model sample_ext sample_config "org/model-x" converted_fs)
          = Ok None) as Hok by (vm_compute; reflexivity).
  split; [exact Hok |].
  exact (proj1 (upload_model_success_pushes_once sample_ext sample_config
                  "org/model-x" converted_fs Hok)).
Defined.

Lemma upload_model_removes_output_directory_witness :
  is_dir_at converted_fs sample_model_dir = true ∧
  is_dir_at (disk (upload_model failing_ext sample_config "org/model-x"
                                converted_fs)) sample_model_dir = false ∧
  disk (upload_model failing_ext sample_config "org/model-x" converted_fs)
    !! (sample_model_dir ++ ["sub"; "deep.onnx"]) = None.
Proof.
  assert (is_dir_at converted_fs sample_model_dir = true) as Hd
    by (vm_compute; reflexivity).
  split; [exact Hd |].
  destruct (upload_model_removes_output_directory failing_ext sample_config
              "org/model-x" converted_fs) as (_ & _ & Hnodir & Hgone).
  split; [exact Hnodir |].
  apply (Hgone Hd). exists ["sub"; "deep.onnx"]. reflexivity.
Defined.

(** The removal of a missing output directory fails, and [upload_model]
    swallows that failure. *)
Lemma upload_model_cleanup_error_swallowed :
  value (rmtree (model_folder_path sample_config "org/model-x") false checkout_fs)
    = Raise (FileNotFoundError sample_model_dir) ∧
  value (upload_model sample_ext sample_config "org/model-x" checkout_fs)
    = Ok (Some "[Errno 2] No such file or directory: 'transformers.js/models/org/model-x/onnx'").
Proof. evaluate_each. Qed.

Lemma no_onnx_fs_idle (n : string) :
  movable no_onnx_fs (model_folder_path sample_config "org/model-x") n = false.
Proof.
  change (model_folder_path sample_config "org/model-x") with sample_model_dir.
  apply not_true_is_false. intros [[data Hdata] Hsuf]%movable_Some.
  unfold no_onnx_fs, checkout_fs in Hdata.
  destruct (decide (n = "config.json")) as [-> | Hn].
  - vm_compute in Hsuf. discriminate Hsuf.
  - rewrite lookup_insert_ne in Hdata by (intros [= ?]; done).
    repeat (rewrite lookup_insert_ne in Hdata by (intros [=])).
    by rewrite lookup_empty in Hdata.
Defined.

Lemma upload_model_no_onnx_files_still_pushes_witness :
  is_dir_at no_onnx_fs (model_folder_path sample_config "org/model-x") = true ∧
  is_file_at no_onnx_fs (onnx_folder_path sample_config "org/model-x") = false ∧
  pushes (effects (upload_model sample_ext sample_config "org/model-x" no_onnx_fs))
    = [("transformers.js/models/org/model-x/onnx", "org/model-x", "onnx")] ∧
  value (upload_model sample_ext sample_config "org/model-x" no_onnx_fs) = Ok None.
Proof.
  assert (is_dir_at no_onnx_fs (model_folder_path sample_config "org/model-x")
          = true) as Hd by (vm_compute; reflexivity).
  assert (is_file_at no_onnx_fs (onnx_folder_path sample_config "org/model-x")
          = false) as Hf by (vm_compute; reflexivity).
  split; [exact Hd |]. split; [exact Hf |].
  destruct (upload_model_no_onnx_files_still_pushes sample_ext sample_config
              "org/model-x" no_onnx_fs Hd Hf no_onnx_fs_idle)
    as (_ & Hpush & _ & Hval).
  split; [exact Hpush | exact Hval].
Defined.

(** C3 as stated fails: in [blocked_fs] the output directory holds a
    top-level regular file [model.onnx], yet [upload_model] moves nothing;
    making the subfolder fails on the regular file in its place, the [try]
    block ends with the model file where it was, no upload is attempted, and
    the text of the error is returned. *)
Lemma upload_model_blocked_subfolder_moves_nothing :
  movable blocked_fs sample_model_dir "model.onnx" = true ∧
  disk (upload_try sample_ext sample_config "org/model-x" blocked_fs)
    !! (sample_model_dir ++ ["model.onnx"]) = Some (File "weights") ∧
  disk (upload_try sample_ext sample_config "org/model-x" blocked_fs)
    !! (sample_model_dir ++ ["onnx"; "model.onnx"]) = None ∧
  effects (upload_model sample_ext sample_config "org/model-x" blocked_fs)
    = [EvMkdir (sample_model_dir ++ ["onnx"]); EvRmtree sample_model_dir] ∧
  value (upload_model sample_ext sample_config "org/model-x" blocked_fs)
    = Ok (Some "[Errno 17] File exists: 'transformers.js/models/org/model-x/onnx'").
Proof. evaluate_each. Qed.

(** C10 as stated fails: [no_onnx_blocked_fs] is an output directory that
    exists and holds no file with suffix [.onnx], yet [upload_model] stops
    with an error before any upload, because a regular file named [onnx]
    stands where the subfolder should go. *)
Lemma upload_model_no_onnx_files_blocked :
  is_dir_at no_onnx_blocked_fs sample_model_dir = true ∧
  filter (λ n, Is_true (movable no_onnx_blocked_fs sample_model_dir n))
         (children no_onnx_blocked_fs sample_model_dir) = [] ∧
  pushes (effects (upload_model sample_ext sample_config "org/model-x"
                                no_onnx_blocked_fs)) = [] ∧
  value (upload_model sample_ext sample_config "org/model-x" no_onnx_blocked_fs)
    = Ok (Some "[Errno 17] File exists: 'transformers.js/models/org/model-x/onnx'").
Proof. evaluate_each. Qed.

(** * Further properties of the program *)

(** ** [Config.from_env] in full *)

Section ConfigurationCases.

Variable ext : external.

(** [from_env] step by step: where the account name comes from, then the
    test of the token. *)
Lemma from_env_eq (env : environment) (fs : filesystem) :
  let user := session_state env !! "user_hf_token" in
  let secret := secrets env !! "HF_TOKEN" in
  let author := environ env !! "SPACE_AUTHOR_NAME" in
  from_env ext env fs =
  Outcome
    (match (if truthy user then whoami_name ext user
            else if truthy author then Ok (default "" author)
            else whoami_name ext secret) with
     | Ok name =>
         if truthy (py_or user secret)
         then Ok (cls (default "" (py_or user secret)) name)
         else Raise (ValueError "HF_TOKEN must be set")
     | Raise e => Raise e
     end)
    fs
    (if truthy user then [EvWhoami user]
     else if truthy author then [] else [EvWhoami secret]).
Proof.
  cbv zeta. unfold from_env, mbind, M_bind, bind, whoami, ret, raise.
  destruct (truthy (session_state env !! "user_hf_token"));
    [| destruct (truthy (environ env !! "SPACE_AUTHOR_NAME"))];
    cbn [value disk effects];
    try (destruct (whoami_name ext _); cbn [value disk effects]; [|done]);
    by destruct (truthy (py_or _ _)).
Qed.

Lemma from_env_disk (env : environment) (fs : filesystem) :
  disk (from_env ext env fs) = fs.
Proof. by rewrite from_env_eq. Qed.

Lemma truthy_Some (o : option string) :
  truthy o = true → ∃ s, o = Some s ∧ s ≠ "".
Proof.
  destruct o as [s|]; [|done]. cbn. intros Hs%negb_true_iff.
  exists s. split; [done |]. by apply String.eqb_neq.
Qed.

Lemma truthy_Some_ne (s : string) : s ≠ "" → truthy (Some s) = true.
Proof. intros Hs. cbn. apply negb_true_iff. by apply String.eqb_neq. Qed.

(** X1.  Whatever configuration [from_env] returns carries a token that is
    not empty: the session token when that one is usable, the secret token
    otherwise.  All other fields have their defaults, the disk is not
    touched and the identity service was asked at most once. *)
Theorem from_env_returns_usable_token (env : environment) (fs : filesystem)
    (config : Config) :
  value (from_env ext env fs) = Ok config →
  hf_token config ≠ "" ∧
  Some (hf_token config)
    = py_or (session_state env !! "user_hf_token") (secrets env !! "HF_TOKEN") ∧
  config = cls (hf_token config) (hf_username config) ∧
  disk (from_env ext env fs) = fs ∧
  (length (effects (from_env ext env fs)) ≤ 1)%nat.
Proof.
  rewrite from_env_eq. cbn [value disk effects]. intros Hval.
  assert (∃ name, truthy (py_or (session_state env !! "user_hf_token")
                                (secrets env !! "HF_TOKEN")) = true ∧
                  config = cls (default "" (py_or (session_state env !! "user_hf_token")
                                                  (secrets env !! "HF_TOKEN"))) name)
    as (name & Htoken & ->).
  { destruct (if truthy (session_state env !! "user_hf_token") then _ else _)
      as [name|e]; [|done].
    destruct (truthy (py_or _ _)); [|done].
    exists name. split; [done | congruence]. }
  apply truthy_Some in Htoken as (token & -> & Hne). cbn [default cls hf_token hf_username].
  repeat split; try done.
  destruct (truthy (session_state env !! "user_hf_token")); [cbn; lia |].
  destruct (truthy (environ env !! "SPACE_AUTHOR_NAME")); cbn; lia.
Qed.

(** X2.  A usable session token decides everything: the account name is
    asked from the identity service with that token, once, whatever the
    secret token and [SPACE_AUTHOR_NAME] are, and a failure of that lookup
    is the failure of [from_env]. *)
Theorem from_env_session_token_first (env : environment) (fs : filesystem)
    (token : string) :
  session_state env !! "user_hf_token" = Some token →
  token ≠ "" →
  effects (from_env ext env fs) = [EvWhoami (Some token)] ∧
  value (from_env ext env fs)
    = match whoami_name ext (Some token) with
      | Ok user => Ok (cls token user)
      | Raise e => Raise e
      end.
Proof.
  intros Htok Hne. rewrite from_env_eq. cbn [value disk effects].
  unfold py_or. rewrite Htok, (truthy_Some_ne token Hne).
  split; [done |].
  destruct (whoami_name ext (Some token)); [|done].
  by rewrite (truthy_Some_ne token Hne).
Qed.

(** X3.  Without a session token, a usable secret token and a set
    [SPACE_AUTHOR_NAME] give the configuration with no outside call at all;
    without the author name the identity service is asked once with the
    secret token. *)
Theorem from_env_secret_token (env : environment) (fs : filesystem)
    (token : string) :
  truthy (session_state env !! "user_hf_token") = false →
  secrets env !! "HF_TOKEN" = Some token →
  token ≠ "" →
  let author := environ env !! "SPACE_AUTHOR_NAME" in
  from_env ext env fs
    = if truthy author
      then Outcome (Ok (cls token (default "" author))) fs []
      else Outcome (match whoami_name ext (Some token) with
                    | Ok user => Ok (cls token user)
                    | Raise e => Raise e
                    end) fs [EvWhoami (Some token)].
Proof.
  intros Huser Htok Hne. cbv zeta. rewrite from_env_eq. cbv zeta.
  unfold py_or. rewrite Huser, Htok.
  destruct (truthy (environ env !! "SPACE_AUTHOR_NAME")).
  - by rewrite (truthy_Some_ne token Hne).
  - destruct (whoami_name ext (Some token)); [|done].
    by rewrite (truthy_Some_ne token Hne).
Qed.

End ConfigurationCases.

(** ** The bootstrap in full *)

Section BootstrapCases.

Variable ext : external.
Variable config : Config.

Lemma get_ref_type_value (fs : filesystem) :
  value (_get_ref_type ext config fs) = Ok (probe_segment ext config) ∧
  disk (_get_ref_type ext config fs) = fs.
Proof.
  unfold _get_ref_type, probe_segment, try_except, mbind, M_bind, bind,
    urlopen_getcode, logger_warning, ret.
  cbn [value disk effects].
  by destruct (urlopen_code ext (tag_url config)) as [code|e].
Qed.

(** X4.  Reference-type resolution asks the archive host exactly once, for
    the tag archive.  It writes a warning to the log only when that probe
    raised; an answer with a status other than 200 makes it a branch without
    a word. *)
Theorem get_ref_type_probes_once (fs : filesystem) :
  effects (_get_ref_type ext config fs)
    = EvUrlopen (tag_url config)
      :: match urlopen_code ext (tag_url config) with
         | Ok _ => []
         | Raise e =>
             [EvLog "WARNING"
                    ("Failed to check tags, defaulting to heads: " +:+ str_exn e)]
         end.
Proof.
  unfold _get_ref_type, try_except, mbind, M_bind, bind,
    urlopen_getcode, logger_warning, ret.
  cbn [value disk effects].
  by destruct (urlopen_code ext (tag_url config)) as [code|e].
Qed.

(** Without a checkout: the probe, then the guarded download with the
    address the probe decided on, then the removal of the archive. *)
Lemma setup_repository_absent (fs : filesystem) :
  exists_at fs (repo_path config) = false →
  setup_repository ext config fs =
  let body := try_except
                (setup_try ext config
                           (archive_url config (probe_segment ext config))
                           (archive_path config))
                (λ e, raise (RuntimeError ("Failed to setup repository: "
                                           +:+ str_exn e))) fs in
  let u := unlink (archive_path config) true (disk body) in
  Outcome (match value u with Ok _ => value body | Raise e => Raise e end)
          (disk u)
          ([EvExists (repo_path config)] ++
           effects (_get_ref_type ext config fs) ++ effects body ++ effects u).
Proof.
  intros Hex. destruct (get_ref_type_value fs) as (Href & Hdisk).
  cbv zeta. unfold setup_repository, mbind, M_bind.
  assert (path_exists (repo_path config) fs =
          Outcome (Ok false) fs [EvExists (repo_path config)]) as Hpe
    by (unfold path_exists; by rewrite Hex).
  rewrite (bind_Outcome_Ok _ _ _ _ _ _ Hpe).
  rewrite (bind_Ok _ _ _ _ Href), Hdisk.
  unfold try_finally. cbn [value disk effects]. reflexivity.
Qed.

Lemma setup_try_effects_head (url : string) (dest : path) (fs : filesystem) :
  ∃ rest, effects (setup_try ext config url dest fs)
          = EvUrlretrieve url dest :: rest.
Proof.
  unfold setup_try, mbind, M_bind.
  destruct (value (urlretrieve ext url dest fs)) as [[]|e] eqn:Hv.
  - rewrite (bind_Ok_effects _ _ _ _ Hv), urlretrieve_effects. by eexists.
  - rewrite (bind_Raise_effects _ _ _ _ Hv), urlretrieve_effects. by eexists.
Qed.

(** X5.  Without a checkout, the first acts of [setup_repository] are the
    existence test, the probe of [_get_ref_type] and then the download, and
    the download address carries the segment the probe decided on: [tags]
    after a 200, [heads] after any other answer or an exception. *)
Theorem setup_repository_downloads_resolved_reference (fs : filesystem) :
  exists_at fs (repo_path config) = false →
  ∃ rest,
    effects (setup_repository ext config fs)
      = [EvExists (repo_path config)]
        ++ effects (_get_ref_type ext config fs)
        ++ [EvUrlretrieve
              (transformers_base_url config +:+ "/" +:+ probe_segment ext config
               +:+ "/" +:+ transformers_version config +:+ ".tar.gz")
              (archive_path config)]
        ++ rest.
Proof.
  intros Hex. rewrite (setup_repository_absent fs Hex). cbn [effects].
  unfold try_except at 1.
  destruct (setup_try_effects_head (archive_url config (probe_segment ext config))
              (archive_path config) fs) as [rest Hrest].
  destruct (value (setup_try _ _ _ _ fs)); cbn [effects]; rewrite Hrest;
    eexists; cbn [app]; rewrite <- ?app_assoc; reflexivity.
Qed.



End BootstrapCases.

(** ** [convert_model] in full *)

(** X9.  [convert_model] never raises and always hands back a message.  It
    launches the converter exactly once, in the checkout directory, with
    the model identifier as one argument of its own, and leaves the disk as
    the converter left it. *)
Theorem convert_model_single_launch (ext : external) (config : Config)
    (id : string) (fs : filesystem) :
  let r := convert_model ext config id fs in
  let run := run_process ext (convert_args (sys_executable ext) id)
                         (repo_path config) fs in
  (∃ ok msg, value r = Ok (ok, Some msg)) ∧
  launches (effects r)
    = [([sys_executable ext; "-m"; "scripts.convert"; "--quantize";
         "--model_id"; id], repo_path config)] ∧
  effects r = [EvSubprocess (convert_args (sys_executable ext) id)
                            (repo_path config)] ∧
  disk r = run.2.
Proof.
  cbv zeta.
  unfold convert_model, try_except, mbind, M_bind, bind, subprocess_run, ret.
  destruct (run_process ext _ _ fs) as [[proc|e] fs'];
    cbn [value disk effects snd].
  - destruct (negb _); cbn [value disk effects]; repeat split; by eauto.
  - repeat split; by eauto.
Qed.

(** ** [upload_model] in full *)

(** A [.onnx] file whose place under the subfolder is taken by a directory
    stops the loop. *)
Section BlockedMove.

Variable d : path.
Let o : path := d ++ ["onnx"].

Lemma move_if_onnx_blocked (n : string) (fs : filesystem) :
  valid_name n = true →
  movable fs d n = true →
  fs !! (o ++ [n]) = Some Dir →
  ∃ e, value (move_if_onnx o (d ++ [n]) fs) = Raise e.
Proof.
  intros Hv Hm Hdir.
  apply movable_Some in Hm as Hm'. destruct Hm' as [[data Hdata] _].
  unfold move_if_onnx, mbind, M_bind, bind, path_is_file. cbn [value disk effects].
  rewrite name_snoc, joinpath_valid_name by done.
  fold (movable fs d n). rewrite Hm.
  unfold rename. rewrite !stat_snoc, Hdata, Hdir. cbn [value]. by eexists.
Qed.

Lemma move_onnx_files_blocked (L : list string) (n : string) (fs : filesystem) :
  (∀ m, m ∈ L → valid_name m = true) →
  NoDup L →
  n ∈ L →
  movable fs d n = true →
  fs !! (o ++ [n]) = Some Dir →
  ∃ e, value (move_onnx_files o ((λ m, d ++ [m]) <$> L) fs) = Raise e.
Proof.
  revert fs. induction L as [|m L IH]; intros fs Hvalid Hnd Hin Hm Hdir;
    [by apply elem_of_nil in Hin |].
  apply NoDup_cons in Hnd as [Hm_notin Hnd].
  assert (HvalidL : ∀ k, k ∈ L → valid_name k = true)
    by (intros k Hk; apply Hvalid; by right).
  assert (valid_name m = true) as Hvm by (apply Hvalid; left).
  rewrite fmap_cons, move_onnx_files_cons.
  destruct (move_if_onnx_cases d m fs Hvm) as (_ & _ & Hcase).
  destruct Hcase as [(Hmm & Hval & Hdisk)
                    | (Hmm & [(e & Hval & _) | (data & Hdata & Hval & Hdisk)])].
  - rewrite (bind_Ok_value _ _ _ _ Hval), Hdisk.
    apply elem_of_cons in Hin as [-> | Hin]; [congruence |]. by apply IH.
  - exists e. by rewrite (bind_Raise_value _ _ _ _ Hval).
  - apply elem_of_cons in Hin as [-> | Hin].
    { destruct (move_if_onnx_blocked m fs) as [e He]; try done.
      unfold o in He. by rewrite Hval in He. }
    assert (n ≠ m) as Hne by (intros ->; done).
    rewrite (bind_Ok_value _ _ _ _ Hval), Hdisk.
    apply IH; try done.
    + apply movable_Some in Hm as [[data' Hdata'] Hsuf]. apply movable_Some.
      split; [|done]. exists data'.
      rewrite lookup_insert_ne by (apply not_eq_sym, source_not_target).
      rewrite lookup_delete_ne; [done |].
      intros [_ [= ->]]%app_inj_tail. done.
    + rewrite lookup_insert_ne; [| intros [_ [= ->]]%app_inj_tail; done].
      rewrite lookup_delete_ne; [done | apply source_not_target].
Qed.

End BlockedMove.

Section UploadCases.

Variable ext : external.
Variable config : Config.
Variable id : string.

Local Abbreviation d := (model_folder_path config id).
Local Abbreviation o := (onnx_folder_path config id).

(** However the [try] block of [upload_model] ends short of the upload,
    nothing was pushed and an exception is on its way. *)
Lemma upload_try_blocked (fs : filesystem) (n : string) :
  valid_name n = true →
  movable fs d n = true →
  fs !! (o ++ [n]) = Some Dir →
  pushes (effects (upload_try ext config id fs)) = [] ∧
  ∃ e, value (upload_try ext config id fs) = Raise e.
Proof.
  intros Hv Hm Hdir.
  destruct (upload_loop_no_push ext config id (disk (mkdir_exist_ok o fs)))
    as [Hp _].
  destruct (upload_try_cases ext config id fs)
    as [(e & _ & ->) | (Hmk & [(e & _ & ->) | (Hd & [(e & _ & ->) | (Hlp & _)])])];
    cbn [value effects].
  - by eauto.
  - by eauto.
  - rewrite pushes_app, Hp. by eauto.
  - exfalso.
    pose proof (mkdir_exist_ok_Ok _ _ Hmk) as (Hnofile & _ & Hframe).
    assert (d ++ [n] ≠ o) as Hne.
    { intros Heq. apply movable_Some in Hm as [[data Hdata] _].
      unfold is_file_at in Hnofile. rewrite Heq in Hdata.
      by rewrite (stat_o config id), Hdata in Hnofile. }
    destruct (move_onnx_files_blocked d
                (listing (dir_rank ext) (disk (mkdir_exist_ok o fs)) d) n
                (disk (mkdir_exist_ok o fs))) as [e He].
    + intros m. apply listed_valid.
    + apply NoDup_listing.
    + apply elem_of_listing. split; [done |].
      apply movable_Some in Hm as [[data Hdata] _].
      rewrite Hframe by done. by eexists.
    + apply movable_Some in Hm as [[data Hdata] Hsuf]. apply movable_Some.
      split; [|done]. exists data. by rewrite Hframe.
    + rewrite <- (o_snoc config id).
      rewrite Hframe; [done |]. apply (source_not_folder o).
    + assert (@Ok unit tt = Raise e) as [=].
      rewrite <- He. symmetry. exact Hlp.
Qed.


(** X11.  Once [upload_model] has called the hub, the hub's answer is the
    result: [None] when the upload was accepted, the text of the hub's
    exception when it was not. *)
Theorem upload_model_returns_hub_answer (fs tree : filesystem) :
  tree ∈ pushed_trees (effects (upload_model ext config id fs)) →
  value (upload_model ext config id fs)
    = match hf_upload_folder ext (hf_token config) (str_path o) id "onnx" tree with
      | Ok _ => Ok None
      | Raise e => Ok (Some (str_exn e))
      end.
Proof.
  rewrite upload_model_eq. cbn [value effects].
  rewrite pushed_trees_app, app_nil_r.
  destruct (upload_try_pushes ext config id fs)
    as [(_ & -> & _) | (_ & _ & _ & _ & -> & _ & ->)];
    [by intros ?%elem_of_nil |].
  intros ->%list_elem_of_singleton.
  by destruct (hf_upload_folder _ _ _ _ _ _) as [[]|].
Qed.

(** X12.  If a directory already has, under the subfolder, the name of a
    top-level [.onnx] file, [upload_model] gives up: it returns an error
    text and the hub is never called. *)
Theorem upload_model_blocked_move_no_push (fs : filesystem) (n : string) :
  valid_name n = true →
  movable fs d n = true →
  fs !! (o ++ [n]) = Some Dir →
  pushes (effects (upload_model ext config id fs)) = [] ∧
  ∃ msg, value (upload_model ext config id fs) = Ok (Some msg).
Proof.
  intros Hv Hm Hdir.
  destruct (upload_try_blocked fs n Hv Hm Hdir) as (Hp & e & He).
  rewrite upload_model_eq. cbn [value effects].
  rewrite pushes_app, Hp, He. split; [done | by eauto].
Qed.

(** X13.  An absolute model identifier takes [model_folder_path] out of
    the checkout: it is the identifier's own path, and a directory standing
    there is removed with everything below it. *)
Theorem upload_model_absolute_identifier (fs : filesystem) :
  is_absolute id = true →
  model_folder_path config id = Path id ∧
  (is_dir_at fs (Path id) = true →
   ∀ q, under (Path id) q → disk (upload_model ext config id fs) !! q = None).
Proof.
  intros Habs.
  assert (model_folder_path config id = Path id) as Heq
    by (unfold model_folder_path, joinpath at 1; by rewrite Habs).
  split; [done |]. rewrite <- Heq. intros Hd q Hq.
  rewrite upload_model_eq. cbn [disk].
  apply rmtree_dir_gone; [|done].
  unfold is_dir_at in *. rewrite (stat_d config id) in *.
  by rewrite upload_try_keeps_folder.
Qed.

(** X14.  A model identifier without any path component (the empty string,
    ["."]) makes [model_folder_path] the [models] directory of the checkout
    itself, so that [upload_model] removes the outputs of every model. *)
Theorem upload_model_empty_identifier (fs : filesystem) :
  is_absolute id = false →
  Path id = [] →
  model_folder_path config id = repo_path config ++ ["models"] ∧
  (is_dir_at fs (repo_path config ++ ["models"]) = true →
   ∀ q, under (repo_path config ++ ["models"]) q →
        disk (upload_model ext config id fs) !! q = None).
Proof.
  intros Habs Hempty.
  assert (model_folder_path config id = repo_path config ++ ["models"]) as Heq.
  { unfold model_folder_path, joinpath at 1. rewrite Habs, Hempty.
    by rewrite app_nil_r. }
  split; [done |]. rewrite <- Heq. intros Hd q Hq.
  rewrite upload_model_eq. cbn [disk].
  apply rmtree_dir_gone; [|done].
  unfold is_dir_at in *. rewrite (stat_d config id) in *.
  by rewrite upload_try_keeps_folder.
Qed.

End UploadCases.

(** ** [_extract_archive] and the first bootstrap *)

Lemma bind_Ok_inv {A B} (m : M A) (k : A → M B) (fs : filesystem) (b : B) :
  value (bind m k fs) = Ok b →
  ∃ a, value (m fs) = Ok a ∧ value (k a (disk (m fs))) = Ok b ∧
       disk (bind m k fs) = disk (k a (disk (m fs))).
Proof.
  unfold bind. destruct (value (m fs)) as [a|e] eqn:Hm; cbn [value disk]; [|done].
  intros Hk. by exists a.
Qed.

Lemma rmtree_strict_Ok (p : path) (fs : filesystem) :
  value (rmtree p false fs) = Ok tt →
  disk (rmtree p false fs) = filter (λ kv, ¬ under p kv.1) fs.
Proof. unfold rmtree. by destruct (stat fs p) as [[data|]|]. Qed.

Lemma unlink_frame (p q : path) (b : bool) (fs : filesystem) :
  q ≠ p → disk (unlink p b fs) !! q = fs !! q.
Proof.
  intros Hq. unfold unlink. destruct (stat fs p) as [[data|]|]; cbn [disk].
  - by rewrite lookup_delete_ne.
  - done.
  - by destruct (stat fs (parent p)) as [[data|]|].
Qed.

Lemma stat_lookup (fs : filesystem) (p : path) : p ≠ [] → stat fs p = fs !! p.
Proof. intros Hp. unfold stat. by rewrite decide_False. Qed.

(** Where a directory was moved to, something now stands. *)
Lemma move_tree_target (src dst : path) (fs : filesystem) (v : node) :
  fs !! src = Some v → is_Some (move_tree src dst fs !! dst).
Proof.
  intros Hsrc. unfold move_tree. apply lookup_union_is_Some. left.
  apply not_eq_None_Some. intros Hnone%not_elem_of_list_to_map.
  apply Hnone, list_elem_of_fmap. exists (dst, v). split; [done |].
  unfold moved_entries. apply list_elem_of_omap. exists (src, v).
  split; [by apply elem_of_map_to_list |].
  rewrite decide_True by (by unfold under).
  by rewrite drop_all, app_nil_r.
Qed.

Lemma rename_Ok_target (src dst : path) (fs : filesystem) :
  src ≠ [] → dst ≠ [] →
  value (rename src dst fs) = Ok tt →
  is_Some (disk (rename src dst fs) !! dst).
Proof.
  intros Hsrc Hdst. unfold rename. rewrite !(stat_lookup _ _ Hsrc), !(stat_lookup _ _ Hdst).
  destruct (fs !! src) as [[data|]|] eqn:Hs; cbn [value disk]; [| |done].
  - destruct (fs !! dst) as [[data'|]|] eqn:Hd; [| done |];
      (destruct (parent_error fs dst); [done |]); cbn [value disk]; intros _;
      rewrite lookup_insert_eq; by eexists.
  - destruct (fs !! dst) as [[data'|]|] eqn:Hd; [done | |].
    + destruct (decide (src = dst)); cbn [value disk]; [by rewrite Hd |].
      destruct (decide (children fs dst = [])); [|done].
      destruct (decide (under src dst)); [done |]. cbn [value disk]. intros _.
      by eapply move_tree_target.
    + destruct (parent_error fs dst); [done |].
      destruct (decide (under src dst)); [done |]. cbn [value disk]. intros _.
      by eapply move_tree_target.
Qed.

Section FirstBootstrap.

Variable ext : external.
Variable config : Config.

(** When [_extract_archive] returns, something stands at the checkout path,
    provided the temporary directory was not made above it. *)
Lemma extract_archive_Ok (archive : path) (fs : filesystem) :
  repo_path config ≠ [] →
  ¬ under (mkdtemp_path ext fs) (repo_path config) →
  value (_extract_archive ext config archive fs) = Ok tt →
  is_Some (disk (_extract_archive ext config archive fs) !! repo_path config).
Proof.
  intros Hrepo Htmp. unfold _extract_archive, mbind, M_bind.
  intros Hval. destruct (bind_Ok_inv _ _ _ _ Hval) as (tmp & Hmk & Hrest & ->).
  assert (tmp = mkdtemp_path ext fs) as ->.
  { revert Hmk. unfold mkdtemp. destruct (exists_at fs _); [done |].
    destruct (parent_error fs _); [done |]. cbn [value]. by intros [= <-]. }
  set (fs1 := disk (mkdtemp ext fs)) in *.
  revert Hrest. unfold try_finally. cbn [value disk].
  set (body := bind (tar_extractall ext archive (mkdtemp_path ext fs)) _ fs1).
  destruct (value (rmtree (mkdtemp_path ext fs) false (disk body)))
    as [[]|e] eqn:Hrm; [|done].
  intros Hbody. rewrite (rmtree_strict_Ok _ _ Hrm).
  destruct (bind_Ok_inv _ _ _ _ Hbody) as ([] & Htar & Hrest & Hdisk).
  fold body in Hdisk.
  destruct (bind_Ok_inv _ _ _ _ Hrest) as (files & Hit & Hren & Hdisk').
  rewrite Hdisk, Hdisk'.
  set (fs2 := disk (tar_extractall ext archive (mkdtemp_path ext fs) fs1)) in *.
  assert (disk (iterdir (dir_rank ext) (mkdtemp_path ext fs) fs2) = fs2
          ∧ files = entries (dir_rank ext) fs2 (mkdtemp_path ext fs)) as [Hfs2 ->].
  { revert Hit. unfold iterdir. destruct (stat fs2 _) as [[data|]|]; try done.
    cbn [value disk]. by intros [= <-]. }
  rewrite Hfs2 in *.
  unfold entries in *.
  destruct (listing (dir_rank ext) fs2 (mkdtemp_path ext fs)) as [|n rest];
    [done |].
  rewrite fmap_cons in *.
  apply (rename_Ok_target _ _ _ (snoc_not_nil _ n) Hrepo) in Hren
    as [v Hv].
  exists v. apply map_lookup_filter_Some_2; done.
Qed.

(** X7.  A first bootstrap that returns leaves something standing at the
    checkout path, so that the next call does nothing but look.  This needs
    the temporary directory not to lie above the checkout path and the
    archive path to differ from it. *)
Theorem setup_repository_then_noop (fs : filesystem) :
  exists_at fs (repo_path config) = false →
  (∀ fs', ¬ under (mkdtemp_path ext fs') (repo_path config)) →
  archive_path config ≠ repo_path config →
  value (setup_repository ext config fs) = Ok tt →
  let fs' := disk (setup_repository ext config fs) in
  exists_at fs' (repo_path config) = true ∧
  setup_repository ext config fs'
    = Outcome (Ok tt) fs' [EvExists (repo_path config)].
Proof.
  intros Hex Htmp Harch Hval. cbv zeta.
  assert (repo_path config ≠ []) as Hrepo.
  { intros Heq. unfold exists_at, stat in Hex. by rewrite Heq in Hex. }
  assert (exists_at (disk (setup_repository ext config fs)) (repo_path config)
          = true) as Hthere.
  { revert Hval. rewrite (setup_repository_absent ext config fs Hex).
    cbn [value disk].
    set (attempt := setup_try ext config _ _).
    destruct (value (unlink _ true _)) as [[]|e]; [|done].
    unfold try_except.
    destruct (value (attempt fs)) as [[]|e] eqn:Hattempt; [|done].
    intros _. unfold exists_at. rewrite (stat_lookup _ _ Hrepo).
    rewrite unlink_frame by done.
    revert Hattempt. unfold attempt, setup_try, mbind, M_bind. intros Hattempt.
    destruct (bind_Ok_inv _ _ _ _ Hattempt) as ([] & Hdl & Hrest & ->).
    destruct (bind_Ok_inv _ _ _ _ Hrest) as ([] & Hext & _ & ->).
    cbn [logger_info disk].
    by destruct (extract_archive_Ok _ _ Hrepo (Htmp _) Hext) as [v ->]. }
  split; [done |].
  revert Hthere. generalize (disk (setup_repository ext config fs)).
  intros fs' Hthere.
  unfold setup_repository, mbind, M_bind, bind, path_exists, ret.
  cbn [value disk effects]. by rewrite Hthere.
Qed.

(** X8.  An archive that unpacks to nothing makes [_extract_archive] raise
    [StopIteration], whose text is empty, after four acts: making the
    temporary directory, unpacking, listing, and removing the temporary
    directory again, which leaves the disk exactly as it was. *)
Theorem extract_archive_empty (archive : path) (data : string) (fs : filesystem) :
  let tmp := mkdtemp_path ext fs in
  stat fs archive = Some (File data) →
  tar_members ext data = Ok [] →
  tmp ≠ [] →
  is_dir_at fs (parent tmp) = true →
  (∀ q, under tmp q → fs !! q = None) →
  _extract_archive ext config archive fs
    = Outcome (Raise StopIteration) fs
              [EvMkdtemp tmp; EvTarExtract archive tmp; EvIterdir tmp;
               EvRmtree tmp].
Proof.
  intros tmp Harch Hmembers Htmp Hparent Hfresh.
  assert (fs !! tmp = None) as Hnone by (by apply Hfresh).
  set (fs1 := <[tmp := Dir]> fs).
  assert (mkdtemp ext fs = Outcome (Ok tmp) fs1 [EvMkdtemp tmp]) as Hmk.
  { unfold mkdtemp, exists_at, parent_error, is_dir_at in *. fold tmp.
    rewrite (stat_lookup _ _ Htmp), Hnone.
    by destruct (stat fs (parent tmp)) as [[d|]|]. }
  assert (stat fs1 archive = Some (File data)) as Harch1.
  { unfold stat in *. case_decide; [done |]. unfold fs1.
    rewrite lookup_insert_ne; [done |]. intros <-. congruence. }
  assert (tar_extractall ext archive tmp fs1
          = Outcome (Ok tt) fs1 [EvTarExtract archive tmp]) as Htar
    by (unfold tar_extractall; by rewrite Harch1, Hmembers).
  assert (is_dir_at fs1 tmp = true) as Hdir.
  { unfold is_dir_at, fs1. by rewrite (stat_lookup _ _ Htmp), lookup_insert_eq. }
  assert (entries (dir_rank ext) fs1 tmp = []) as Hentries.
  { unfold entries.
    assert (listing (dir_rank ext) fs1 tmp = []) as ->; [|done].
    apply elem_of_nil_inv. intros n [_ [v Hv]]%elem_of_listing.
    unfold fs1 in Hv. rewrite lookup_insert_ne in Hv
      by (apply not_eq_sym, source_not_folder).
    rewrite Hfresh in Hv; [done |]. by apply prefix_app_r. }
  assert (filter (λ kv : path * node, ¬ under tmp kv.1) fs1 = fs) as Hclean.
  { apply map_eq. intros q. destruct (decide (under tmp q)) as [Hq|Hq].
    - rewrite (Hfresh q Hq). apply map_lookup_filter_None_2. right.
      intros v _ Hnot. by apply Hnot.
    - unfold fs1. destruct (fs !! q) as [v|] eqn:Hv.
      + apply map_lookup_filter_Some_2; [|done].
        rewrite lookup_insert_ne; [done |]. intros <-. by apply Hq.
      + apply map_lookup_filter_None_2. left.
        rewrite lookup_insert_ne; [done |]. intros <-. by apply Hq. }
  unfold _extract_archive, mbind, M_bind.
  rewrite (bind_Outcome_Ok _ _ _ _ _ _ Hmk).
  unfold try_finally.
  rewrite (bind_Outcome_Ok _ _ _ _ _ _ Htar).
  rewrite (bind_Outcome_Ok _ _ _ _ _ _ (iterdir_dir _ _ _ Hdir)), Hentries.
  cbn [value disk effects raise app].
  unfold rmtree. unfold is_dir_at in Hdir.
  destruct (stat fs1 tmp) as [[d|]|]; try done.
  cbn [value disk effects app]. by rewrite Hclean.
Qed.

End FirstBootstrap.

(** ** What the bootstrap never does *)

Lemma inward_ret {A} (a : A) : inward (ret a).
Proof. intros fs. constructor. Qed.

Lemma inward_raise {A} (e : exn) : inward (@raise A e).
Proof. intros fs. constructor. Qed.

Lemma inward_bind {A B} (m : M A) (k : A → M B) :
  inward m → (∀ a, inward (k a)) → inward (bind m k).
Proof.
  intros Hm Hk fs. unfold bind.
  destruct (value (m fs)) as [a|e]; cbn [effects]; [|apply Hm].
  apply Forall_app. split; [apply Hm | apply Hk].
Qed.

Lemma inward_try_except {A} (body : M A) (handler : exn → M A) :
  inward body → (∀ e, inward (handler e)) → inward (try_except body handler).
Proof.
  intros Hb Hh fs. unfold try_except.
  destruct (value (body fs)) as [a|e]; cbn [effects]; [apply Hb |].
  apply Forall_app. split; [apply Hb | apply Hh].
Qed.

Lemma inward_try_finally {A} (body : M A) (fin : M unit) :
  inward body → inward fin → inward (try_finally body fin).
Proof.
  intros Hb Hf fs. unfold try_finally. cbn [effects].
  apply Forall_app. split; [apply Hb | apply Hf].
Qed.

(** A primitive with a single event that is not outward. *)
Ltac inward_primitive :=
  intros fs;
  repeat match goal with
         | |- context [match ?x with _ => _ end] => destruct x
         end;
  cbn [effects]; repeat constructor; by intros [].

Lemma inward_path_exists (p : path) : inward (path_exists p).
Proof. inward_primitive. Qed.

Lemma inward_logger_warning (msg : string) : inward (logger_warning msg).
Proof. inward_primitive. Qed.

Lemma inward_logger_info (msg : string) : inward (logger_info msg).
Proof. inward_primitive. Qed.

Lemma inward_unlink (p : path) (b : bool) : inward (unlink p b).
Proof. unfold unlink. inward_primitive. Qed.

Lemma inward_rmtree (p : path) (b : bool) : inward (rmtree p b).
Proof. unfold rmtree. inward_primitive. Qed.

Lemma inward_iterdir (rank : string → nat) (p : path) : inward (iterdir rank p).
Proof. unfold iterdir. inward_primitive. Qed.

Lemma inward_rename (src dst : path) : inward (rename src dst).
Proof. unfold rename. inward_primitive. Qed.

Lemma inward_urlopen_getcode (ext : external) (url : string) :
  inward (urlopen_getcode ext url).
Proof. inward_primitive. Qed.

Lemma inward_urlretrieve (ext : external) (url : string) (dest : path) :
  inward (urlretrieve ext url dest).
Proof. unfold urlretrieve. inward_primitive. Qed.

Lemma inward_mkdtemp (ext : external) : inward (mkdtemp ext).
Proof. unfold mkdtemp. inward_primitive. Qed.

Lemma inward_tar_extractall (ext : external) (archive dest : path) :
  inward (tar_extractall ext archive dest).
Proof. unfold tar_extractall. inward_primitive. Qed.

Lemma inward_whoami (ext : external) (token : option string) :
  inward (whoami ext token).
Proof. inward_primitive. Qed.

Lemma inward_setup_repository (ext : external) (config : Config) :
  inward (setup_repository ext config).
Proof.
  unfold setup_repository, setup_try, _extract_archive, _get_ref_type,
    mbind, M_bind.
  apply inward_bind; [apply inward_path_exists |]. intros [|]; [apply inward_ret |].
  apply inward_bind.
  { apply inward_try_except.
    - apply inward_bind; [apply inward_urlopen_getcode | intros; apply inward_ret].
    - intros e. apply inward_bind; [apply inward_logger_warning |].
      intros; apply inward_ret. }
  intros ref_type. apply inward_try_finally; [|apply inward_unlink].
  apply inward_try_except; [|intros; apply inward_raise].
  apply inward_bind; [apply inward_urlretrieve |]. intros _.
  apply inward_bind; [|intros; apply inward_logger_info].
  apply inward_bind; [apply inward_mkdtemp |]. intros tmp.
  apply inward_try_finally; [|apply inward_rmtree].
  apply inward_bind; [apply inward_tar_extractall |]. intros _.
  apply inward_bind; [apply inward_iterdir |].
  intros [|first rest]; [apply inward_raise | apply inward_rename].
Qed.

Lemma inward_from_env (ext : external) (env : environment) :
  inward (from_env ext env).
Proof.
  unfold from_env, mbind, M_bind. apply inward_bind.
  - destruct (truthy _); [apply inward_whoami |].
    destruct (truthy _); [apply inward_ret | apply inward_whoami].
  - intros name. destruct (negb _); [apply inward_raise | apply inward_ret].
Qed.

Lemma inward_pushes {A} (m : M A) (fs : filesystem) :
  inward m → pushes (effects (m fs)) = [].
Proof.
  intros Hm. specialize (Hm fs). induction Hm as [|ev evs Hev _ IH]; [done |].
  destruct ev; try exact IH; by destruct Hev.
Qed.

Lemma inward_launches {A} (m : M A) (fs : filesystem) :
  inward m → launches (effects (m fs)) = [].
Proof.
  intros Hm. specialize (Hm fs). induction Hm as [|ev evs Hev _ IH]; [done |].
  destruct ev; try exact IH; by destruct Hev.
Qed.

(** X21.  [setup_repository] and [from_env] never start a process and
    never call the hub, whatever the disk and the outside are: the bootstrap
    only looks at the disk, probes and fetches the archive, unpacks, moves,
    removes and logs, and the configuration only asks for the account name. *)
Theorem startup_stays_inward (ext : external) (env : environment)
    (config : Config) (fs : filesystem) :
  launches (effects (setup_repository ext config fs)) = [] ∧
  pushes (effects (setup_repository ext config fs)) = [] ∧
  launches (effects (from_env ext env fs)) = [] ∧
  pushes (effects (from_env ext env fs)) = [].
Proof.
  split; [|split; [|split]].
  - apply inward_launches, inward_setup_repository.
  - apply inward_pushes, inward_setup_repository.
  - apply inward_launches, inward_from_env.
  - apply inward_pushes, inward_from_env.
Qed.

(** ** [main] *)

Lemma after_after {A} (evs evs' : list event) (ws ws' : list widget) (p : page A) :
  after evs ws (after evs' ws' p) = after (evs ++ evs') (ws ++ ws') p.
Proof. unfold after. cbn [answer screen value disk effects]. by rewrite !app_assoc. Qed.

Lemma page_bind_call_Ok {A B} (m : M A) (k : A → P B) (fs : filesystem) (a : A) :
  value (m fs) = Ok a →
  page_bind (call m) k fs = after (effects (m fs)) [] (k a (disk (m fs))).
Proof. intros H. unfold page_bind, call, after. cbn [answer screen]. by rewrite H. Qed.

Lemma page_bind_call_Raise {A B} (m : M A) (k : A → P B) (fs : filesystem) (e : exn) :
  value (m fs) = Raise e →
  page_bind (call m) k fs = Page (Outcome (Raise e) (disk (m fs)) (effects (m fs))) [].
Proof. intros H. unfold page_bind, call. cbn [answer screen]. by rewrite H. Qed.

Lemma page_bind_st {B} (w : widget) (k : unit → P B) (fs : filesystem) :
  page_bind (st w) k fs = after [] [w] (k tt fs).
Proof. reflexivity. Qed.

Lemma page_bind_text_input {B} (label entered : string) (k : string → P B)
    (fs : filesystem) :
  page_bind (st_text_input label entered) k fs
    = after [] [StTextInput label] (k entered fs).
Proof. reflexivity. Qed.

Lemma page_bind_button {B} (label : string) (pressed : bool) (k : bool → P B)
    (fs : filesystem) :
  page_bind (st_button label pressed) k fs
    = after [] [StButton label] (k pressed fs).
Proof. reflexivity. Qed.

Lemma after_nil {A} (p : page A) :
  after [] [] p = Page (Outcome (value (answer p)) (disk (answer p))
                                (effects (answer p))) (screen p).
Proof. reflexivity. Qed.

Section DriverCases.

Variable ext : external.

(** [main] around its [try] block: the title first, the error report last
    when the block raised, and never an exception. *)
Lemma main_eq (env : environment) (ui : form) (fs : filesystem) :
  let p := main_try ext env ui fs in
  main ext env ui fs
    = Page (Outcome (Ok tt) (disk (answer p)) (effects (answer p)))
           ([StWrite page_title] ++ screen p
            ++ match value (answer p) with
               | Ok _ => []
               | Raise e => error_report e
               end).
Proof.
  cbv zeta. unfold main, mbind, P_bind. rewrite page_bind_st.
  unfold page_try_except, after.
  destruct (main_try ext env ui fs) as [[[[]|e] d evs] ws];
    cbn [answer screen value disk effects app st ret page_bind];
    by rewrite ?app_nil_r.
Qed.

Lemma convert_model_eq (config : Config) (id : string) (fs : filesystem) :
  ∃ ok msg,
    convert_model ext config id fs
      = Outcome (Ok (ok, Some msg))
                (run_process ext (convert_args (sys_executable ext) id)
                             (repo_path config) fs).2
                [EvSubprocess (convert_args (sys_executable ext) id)
                              (repo_path config)].
Proof.
  unfold convert_model, try_except, mbind, M_bind, bind, subprocess_run, ret.
  destruct (run_process ext _ _ fs) as [[proc|e] fs'];
    cbn [value disk effects snd app].
  - destruct (negb _); cbn [value disk effects]; by eauto.
  - by eauto.
Qed.

Lemma upload_model_value (config : Config) (id : string) (fs : filesystem) :
  ∃ err, value (upload_model ext config id fs) = Ok err.
Proof.
  rewrite upload_model_eq. cbn [value].
  destruct (value (upload_try ext config id fs)); by eauto.
Qed.

(** The page after a conversion that succeeded. *)
Lemma main_upload_eq (config : Config) (id url : string) (fs : filesystem)
    (err : option string) :
  value (upload_model ext config id fs) = Ok err →
  main_upload ext config id url fs
    = Page (Outcome (Ok tt) (disk (upload_model ext config id fs))
                    (effects (upload_model ext config id fs)))
           (StSpinner "Uploading model..."
            :: if truthy err
               then [StError ("Upload failed: " +:+ format_optional err)]
               else [StSuccess "Upload successful!";
                     StWrite "You can now go and view the model on Hugging Face!";
                     StLinkButton ("Go to " +:+ id) url]).
Proof.
  intros Hup. unfold main_upload, mbind, P_bind.
  rewrite page_bind_st, (page_bind_call_Ok _ _ _ _ Hup).
  destruct (truthy err); unfold after;
    cbn [answer screen value disk effects app st ret page_bind];
    by rewrite ?app_nil_r.
Qed.

(** The page after the button was pressed. *)
Lemma main_convert_eq (config : Config) (id url : string) (fs : filesystem)
    (ok : bool) (msg : option string) :
  value (convert_model ext config id fs) = Ok (ok, msg) →
  main_convert ext config id url fs
    = if ok
      then after (effects (convert_model ext config id fs))
                 [StSpinner "Converting model...";
                  StSuccess "Conversion successful!"; StCode msg]
                 (main_upload ext config id url
                              (disk (convert_model ext config id fs)))
      else Page (Outcome (Ok tt) (disk (convert_model ext config id fs))
                         (effects (convert_model ext config id fs)))
                [StSpinner "Converting model...";
                 StError ("Conversion failed: " +:+ format_optional msg)].
Proof.
  intros Hcv. unfold main_convert, mbind, P_bind.
  rewrite page_bind_st, (page_bind_call_Ok _ _ _ _ Hcv). cbn [fst snd].
  destruct ok; cbn [negb].
  - rewrite !page_bind_st, !after_after. by rewrite !app_nil_r.
  - unfold after. cbn [answer screen value disk effects app st ret].
    by rewrite ?app_nil_r.
Qed.

(** The form: nothing runs without an identifier and a pressed button. *)
Lemma main_form_eq (config : Config) (ui : form) (fs : filesystem) :
  main_form ext config ui fs
    = if String.eqb (model_id_field ui) ""
      then Page (Outcome (Ok tt) fs []) [StTextInput model_id_label]
      else if proceed_clicked ui
      then after [] [StTextInput model_id_label;
                     StPasswordInput token_label "user_hf_token";
                     StButton "Proceed"]
                 (main_convert ext config (model_id_field ui)
                    (hf_base_url config +:+ "/" +:+ model_id_field ui) fs)
      else Page (Outcome (Ok tt) fs [])
                [StTextInput model_id_label;
                 StPasswordInput token_label "user_hf_token";
                 StButton "Proceed"].
Proof.
  unfold main_form, mbind, P_bind. rewrite page_bind_text_input.
  destruct (String.eqb (model_id_field ui) ""); [done |].
  rewrite page_bind_st, page_bind_button.
  destruct (proceed_clicked ui); cbn [negb]; [by rewrite !after_after | done].
Qed.

(** The [try] block by the outcome of the two start-up steps. *)
Lemma main_try_eq (env : environment) (ui : form) (fs : filesystem) :
  main_try ext env ui fs
    = match value (from_env ext env fs) with
      | Raise e => Page (Outcome (Raise e) fs (effects (from_env ext env fs))) []
      | Ok config =>
          match value (setup_repository ext config fs) with
          | Raise e =>
              Page (Outcome (Raise e) (disk (setup_repository ext config fs))
                            (effects (from_env ext env fs)
                             ++ effects (setup_repository ext config fs))) []
          | Ok _ =>
              after (effects (from_env ext env fs)
                     ++ effects (setup_repository ext config fs)) []
                    (main_form ext config ui
                               (disk (setup_repository ext config fs)))
          end
      end.
Proof.
  unfold main_try, mbind, P_bind.
  destruct (value (from_env ext env fs)) as [config|e] eqn:Hfe.
  - rewrite (page_bind_call_Ok _ _ _ _ Hfe), from_env_disk.
    destruct (value (setup_repository ext config fs)) as [[]|e] eqn:Hsu.
    + by rewrite (page_bind_call_Ok _ _ _ _ Hsu), after_after.
    + rewrite (page_bind_call_Raise _ _ _ _ Hsu). unfold after.
      by cbn [answer screen value disk effects app].
  - by rewrite (page_bind_call_Raise _ _ _ _ Hfe), from_env_disk.
Qed.

Lemma main_form_value (config : Config) (ui : form) (fs : filesystem) :
  value (answer (main_form ext config ui fs)) = Ok tt.
Proof.
  rewrite main_form_eq. destruct (String.eqb _ ""); [done |].
  destruct (proceed_clicked ui); [|done].
  destruct (convert_model_eq config (model_id_field ui) fs) as (ok & msg & Hcv).
  rewrite (main_convert_eq _ _ _ _ ok (Some msg)) by (by rewrite Hcv).
  destruct ok; [|done].
  destruct (upload_model_value config (model_id_field ui)
              (disk (convert_model ext config (model_id_field ui) fs)))
    as [err Herr].
  by rewrite (main_upload_eq _ _ _ _ err Herr).
Qed.

(** X15.  [main] never raises.  Its catch-all is reached exactly when
    [from_env] or [setup_repository] raises; a failed conversion and a
    failed upload are not exceptions and never get there. *)
Theorem main_never_raises (env : environment) (ui : form) (fs : filesystem) :
  value (answer (main ext env ui fs)) = Ok tt ∧
  value (answer (main_try ext env ui fs))
    = match value (from_env ext env fs) with
      | Raise e => Raise e
      | Ok config =>
          match value (setup_repository ext config fs) with
          | Raise e => Raise e
          | Ok _ => Ok tt
          end
      end.
Proof.
  split; [by rewrite main_eq |]. rewrite main_try_eq.
  destruct (value (from_env ext env fs)) as [config|e]; [|done].
  destruct (value (setup_repository ext config fs)) as [[]|e]; [|done].
  unfold after. cbn [answer value]. apply main_form_value.
Qed.

(** X16.  When [from_env] raises, the page is the title and the error
    report with the text of the exception, and nothing was done beyond the
    acts of [from_env]: no bootstrap, no form.  When [setup_repository]
    raises, the same report is all the page shows below the title. *)
Theorem main_reports_startup_failure (env : environment) (ui : form)
    (fs : filesystem) :
  (∀ e, value (from_env ext env fs) = Raise e →
        main ext env ui fs
          = Page (Outcome (Ok tt) fs (effects (from_env ext env fs)))
                 [StWrite page_title; LoggerException "Application error";
                  StError ("An error occurred: " +:+ str_exn e)]) ∧
  (∀ config e,
      value (from_env ext env fs) = Ok config →
      value (setup_repository ext config fs) = Raise e →
      main ext env ui fs
        = Page (Outcome (Ok tt) (disk (setup_repository ext config fs))
                        (effects (from_env ext env fs)
                         ++ effects (setup_repository ext config fs)))
               [StWrite page_title; LoggerException "Application error";
                StError ("An error occurred: " +:+ str_exn e)]).
Proof.
  split.
  - intros e Hfe. rewrite main_eq, main_try_eq, Hfe. by cbn.
  - intros config e Hfe Hsu. rewrite main_eq, main_try_eq, Hfe, Hsu. by cbn.
Qed.

Lemma main_waits_for_input_pushes (env : environment) (ui : form)
    (fs : filesystem) (config : Config) :
  value (from_env ext env fs) = Ok config →
  value (setup_repository ext config fs) = Ok tt →
  model_id_field ui = "" ∨ proceed_clicked ui = false →
  pushes (effects (answer (main ext env ui fs))) = [].
Proof.
  intros Hfe Hsu Hidle.
  rewrite main_eq, main_try_eq, Hfe, Hsu, main_form_eq.
  assert (∀ p : page unit,
            effects (answer p) = [] →
            pushes (effects (answer
              (after (effects (from_env ext env fs)
                      ++ effects (setup_repository ext config fs)) [] p))) = [])
    as Hafter.
  { intros p Hp. unfold after. cbn [answer effects].
    rewrite Hp, !pushes_app.
    by rewrite (inward_pushes _ _ (inward_from_env ext env)),
      (inward_pushes _ _ (inward_setup_repository ext config)). }
  cbn [answer effects]. apply Hafter.
  destruct Hidle as [-> | ->]; [done |].
  by destruct (String.eqb _ "").
Qed.

(** X17.  After a start that went well, a run without a model identifier or
    without the button pressed does nothing more: no process is started,
    the hub is not called, the disk stays as the bootstrap left it, and with
    an empty identifier not even the token field and the button are shown. *)
Theorem main_waits_for_input (env : environment) (ui : form) (fs : filesystem)
    (config : Config) :
  value (from_env ext env fs) = Ok config →
  value (setup_repository ext config fs) = Ok tt →
  model_id_field ui = "" ∨ proceed_clicked ui = false →
  let r := main ext env ui fs in
  effects (answer r)
    = effects (from_env ext env fs) ++ effects (setup_repository ext config fs) ∧
  disk (answer r) = disk (setup_repository ext config fs) ∧
  launches (effects (answer r)) = [] ∧
  pushes (effects (answer r)) = [] ∧
  screen r = if String.eqb (model_id_field ui) ""
             then [StWrite page_title; StTextInput model_id_label]
             else form_widgets.
Proof.
  intros Hfe Hsu Hidle. cbv zeta.
  assert (main ext env ui fs
          = Page (Outcome (Ok tt) (disk (setup_repository ext config fs))
                          (effects (from_env ext env fs)
                           ++ effects (setup_repository ext config fs)))
                 (if String.eqb (model_id_field ui) ""
                  then [StWrite page_title; StTextInput model_id_label]
                  else form_widgets)) as ->.
  { rewrite main_eq, main_try_eq, Hfe, Hsu, main_form_eq.
    destruct Hidle as [-> | ->].
    - cbn. by rewrite !app_nil_r.
    - destruct (String.eqb _ ""); cbn; by rewrite !app_nil_r. }
  cbn [answer screen value disk effects].
  repeat split.
  - unfold launches. rewrite omap_app. fold (launches (effects (from_env ext env fs))).
    fold (launches (effects (setup_repository ext config fs))).
    by rewrite (inward_launches _ _ (inward_from_env ext env)),
      (inward_launches _ _ (inward_setup_repository ext config)).
  - rewrite pushes_app.
    by rewrite (inward_pushes _ _ (inward_from_env ext env)),
      (inward_pushes _ _ (inward_setup_repository ext config)).
Qed.

Lemma launches_app (l k : list event) : launches (l ++ k) = launches l ++ launches k.
Proof. apply omap_app. Qed.

Lemma convert_model_pushes (config : Config) (id : string) (fs : filesystem) :
  pushes (effects (convert_model ext config id fs)) = [].
Proof. by destruct (convert_model_eq config id fs) as (ok & msg & ->). Qed.

Lemma upload_model_pushes (config : Config) (id : string) (fs : filesystem) :
  pushes (effects (upload_model ext config id fs)) = [] ∨
  pushes (effects (upload_model ext config id fs))
    = [(str_path (onnx_folder_path config id), id, "onnx")].
Proof.
  rewrite upload_model_eq. cbn [effects]. rewrite pushes_app, app_nil_r.
  destruct (upload_try_pushes ext config id fs)
    as [(-> & _) | (_ & _ & _ & -> & _)]; by eauto.
Qed.

(** The whole run once the button is pressed on a non-empty identifier. *)
Lemma main_pressed (env : environment) (ui : form) (fs : filesystem)
    (config : Config) :
  value (from_env ext env fs) = Ok config →
  value (setup_repository ext config fs) = Ok tt →
  model_id_field ui ≠ "" →
  proceed_clicked ui = true →
  main ext env ui fs
    = after (effects (from_env ext env fs)
             ++ effects (setup_repository ext config fs))
            form_widgets
            (main_convert ext config (model_id_field ui)
               (hf_base_url config +:+ "/" +:+ model_id_field ui)
               (disk (setup_repository ext config fs))).
Proof.
  intros Hfe Hsu Hid Hpressed.
  rewrite main_eq, main_try_eq, Hfe, Hsu, main_form_eq, Hpressed.
  apply String.eqb_neq in Hid. rewrite Hid. rewrite after_after.
  unfold after. cbn [answer screen value disk effects].
  set (p := main_convert _ _ _ _ _).
  assert (value (answer p) = Ok tt) as Hp.
  { pose proof (main_form_value config ui (disk (setup_repository ext config fs)))
      as Hv.
    rewrite main_form_eq, Hid, Hpressed in Hv. exact Hv. }
  rewrite Hp. by rewrite !app_nil_r.
Qed.

(** X18.  When the converter fails, [main] shows ["Conversion failed: "]
    with the message and stops: [upload_model] is not called, so the hub is
    not asked and the output directory is not removed; the disk is as the
    converter left it. *)
Theorem main_conversion_failure (env : environment) (ui : form)
    (fs : filesystem) (config : Config) (msg : option string) :
  let id := model_id_field ui in
  let su := setup_repository ext config fs in
  let cv := convert_model ext config id (disk su) in
  value (from_env ext env fs) = Ok config →
  value su = Ok tt →
  id ≠ "" →
  proceed_clicked ui = true →
  value cv = Ok (false, msg) →
  main ext env ui fs
    = Page (Outcome (Ok tt) (disk cv)
                    (effects (from_env ext env fs) ++ effects su ++ effects cv))
           (form_widgets
            ++ [StSpinner "Converting model...";
                StError ("Conversion failed: " +:+ format_optional msg)]) ∧
  pushes (effects (answer (main ext env ui fs))) = [].
Proof.
  cbv zeta. intros Hfe Hsu Hid Hpressed Hcv.
  set (su := setup_repository ext config fs) in *.
  set (cv := convert_model ext config (model_id_field ui) (disk su)) in *.
  assert (main ext env ui fs
          = Page (Outcome (Ok tt) (disk cv)
                          (effects (from_env ext env fs) ++ effects su
                           ++ effects cv))
                 (form_widgets
                  ++ [StSpinner "Converting model...";
                      StError ("Conversion failed: " +:+ format_optional msg)]))
    as Hmain.
  { rewrite (main_pressed env ui fs config Hfe Hsu Hid Hpressed).
    rewrite (main_convert_eq _ _ _ _ false msg Hcv).
    unfold after. cbn [answer screen value disk effects].
    by rewrite <- app_assoc. }
  split; [done |]. rewrite Hmain. cbn [answer effects].
  rewrite !pushes_app. unfold cv, su.
  by rewrite (inward_pushes _ _ (inward_from_env ext env)),
    (inward_pushes _ _ (inward_setup_repository ext config)),
    convert_model_pushes.
Qed.

(** X19.  In a whole run of [main] the hub is called at most once, and only
    after the configuration and the bootstrap went well, an identifier was
    entered, the button was pressed and the converter reported success; the
    call is then for the entered identifier and the segment ["onnx"]. *)
Theorem main_uploads_only_after_conversion (env : environment) (ui : form)
    (fs : filesystem) :
  pushes (effects (answer (main ext env ui fs))) = [] ∨
  ∃ config msg,
    value (from_env ext env fs) = Ok config ∧
    value (setup_repository ext config fs) = Ok tt ∧
    model_id_field ui ≠ "" ∧
    proceed_clicked ui = true ∧
    value (convert_model ext config (model_id_field ui)
                         (disk (setup_repository ext config fs)))
      = Ok (true, msg) ∧
    pushes (effects (answer (main ext env ui fs)))
      = [(str_path (onnx_folder_path config (model_id_field ui)),
          model_id_field ui, "onnx")].
Proof.
  destruct (value (from_env ext env fs)) as [config|e] eqn:Hfe.
  2:{ left. rewrite main_eq, main_try_eq, Hfe. cbn [answer effects].
      apply inward_pushes, inward_from_env. }
  destruct (value (setup_repository ext config fs)) as [[]|e] eqn:Hsu.
  2:{ left. rewrite main_eq, main_try_eq, Hfe, Hsu. cbn [answer effects].
      rewrite pushes_app.
      by rewrite (inward_pushes _ _ (inward_from_env ext env)),
        (inward_pushes _ _ (inward_setup_repository ext config)). }
  destruct (decide (model_id_field ui = "")) as [Hid|Hid].
  { left. by apply (main_waits_for_input_pushes env ui fs config Hfe Hsu); left. }
  destruct (proceed_clicked ui) eqn:Hpressed.
  2:{ left. by apply (main_waits_for_input_pushes env ui fs config Hfe Hsu); right. }
  rewrite (main_pressed env ui fs config Hfe Hsu Hid Hpressed).
  destruct (convert_model_eq config (model_id_field ui)
              (disk (setup_repository ext config fs))) as (ok & msg & Hcv).
  assert (value (convert_model ext config (model_id_field ui)
                   (disk (setup_repository ext config fs)))
          = Ok (ok, Some msg)) as Hcvv by (by rewrite Hcv).
  rewrite (main_convert_eq _ _ _ _ ok (Some msg) Hcvv).
  destruct ok.
  - destruct (upload_model_value config (model_id_field ui)
                (disk (convert_model ext config (model_id_field ui)
                         (disk (setup_repository ext config fs)))))
      as [err Herr].
    rewrite (main_upload_eq _ _ _ _ err Herr).
    unfold after. cbn [answer effects]. rewrite !pushes_app.
    rewrite (inward_pushes _ _ (inward_from_env ext env)),
      (inward_pushes _ _ (inward_setup_repository ext config)),
      convert_model_pushes.
    cbn [app].
    destruct (upload_model_pushes config (model_id_field ui)
                (disk (convert_model ext config (model_id_field ui)
                         (disk (setup_repository ext config fs)))))
      as [-> | ->]; [by left |].
    right. exists config, (Some msg). by repeat split.
  - left. unfold after. cbn [answer effects]. rewrite !pushes_app.
    by rewrite (inward_pushes _ _ (inward_from_env ext env)),
      (inward_pushes _ _ (inward_setup_repository ext config)),
      convert_model_pushes.
Qed.

(** X20.  After a conversion that succeeded, [main] shows the converter's
    standard error and then what [upload_model] returned: ["Upload failed: "]
    with the text when the text is not empty, and otherwise the success
    lines with a link to the hub address of the identifier.  An error whose
    text is empty is therefore shown as a success. *)
Theorem main_upload_report (env : environment) (ui : form) (fs : filesystem)
    (config : Config) (msg err : option string) :
  let id := model_id_field ui in
  let su := setup_repository ext config fs in
  let cv := convert_model ext config id (disk su) in
  let up := upload_model ext config id (disk cv) in
  value (from_env ext env fs) = Ok config →
  value su = Ok tt →
  id ≠ "" →
  proceed_clicked ui = true →
  value cv = Ok (true, msg) →
  value up = Ok err →
  disk (answer (main ext env ui fs)) = disk up ∧
  screen (main ext env ui fs)
    = form_widgets
      ++ [StSpinner "Converting model..."; StSuccess "Conversion successful!";
          StCode msg; StSpinner "Uploading model..."]
      ++ if truthy err
         then [StError ("Upload failed: " +:+ format_optional err)]
         else [StSuccess "Upload successful!";
               StWrite "You can now go and view the model on Hugging Face!";
               StLinkButton ("Go to " +:+ id) (hf_base_url config +:+ "/" +:+ id)].
Proof.
  cbv zeta. intros Hfe Hsu Hid Hpressed Hcv Hup.
  rewrite (main_pressed env ui fs config Hfe Hsu Hid Hpressed).
  rewrite (main_convert_eq _ _ _ _ true msg Hcv).
  rewrite (main_upload_eq _ _ _ _ err Hup).
  unfold after. cbn [answer screen disk]. split; [done |].
  by destruct (truthy err).
Qed.


(** ** The credential of the push *)

Lemma push_tokens_app (l k : list event) :
  push_tokens (l ++ k) = push_tokens l ++ push_tokens k.
Proof. apply omap_app. Qed.

Lemma push_tokens_quiet (evs : list event) :
  pushes evs = [] → push_tokens evs = [].
Proof.
  induction evs as [|ev evs IH]; [done |].
  destruct ev; try exact IH. discriminate.
Qed.

Lemma upload_model_push_tokens (config : Config) (id : string) (fs : filesystem) :
  push_tokens (effects (upload_model ext config id fs)) = [] ∨
  push_tokens (effects (upload_model ext config id fs)) = [hf_token config].
Proof.
  rewrite upload_model_eq. cbn [effects]. rewrite push_tokens_app, app_nil_r.
  pose proof (upload_loop_no_push ext config id
                (disk (mkdir_exist_ok (onnx_folder_path config id) fs)))
    as [Hquiet%push_tokens_quiet _].
  destruct (upload_try_cases ext config id fs)
    as [(e & _ & ->) | (Hmk & [(e & _ & ->) | (Hd & [(e & _ & ->) | (Hlp & ->)])])];
    cbn [value disk effects]; rewrite ?push_tokens_app, ?Hquiet; by eauto.
Qed.

Lemma from_env_token (env : environment) (fs : filesystem) (config : Config) :
  value (from_env ext env fs) = Ok config →
  hf_token config ≠ "" ∧
  Some (hf_token config)
    = py_or (session_state env !! "user_hf_token") (secrets env !! "HF_TOKEN").
Proof.
  rewrite from_env_eq. cbn [value]. intros Hval.
  destruct (if truthy (session_state env !! "user_hf_token") then _ else _)
    as [name|e]; [|done].
  destruct (truthy (py_or _ _)) eqn:Htoken; [|done].
  injection Hval as <-.
  apply truthy_Some in Htoken as (token & -> & Hne). by cbn.
Qed.

(** X22.  Whenever a run of [main] calls the hub, the client carries the
    token [from_env] chose: the session token when that one is usable and
    the secret token otherwise, and never an empty one. *)
Theorem main_pushes_with_chosen_token (env : environment) (ui : form)
    (fs : filesystem) :
  Forall (λ token,
            token ≠ "" ∧
            Some token = py_or (session_state env !! "user_hf_token")
                               (secrets env !! "HF_TOKEN"))
         (push_tokens (effects (answer (main ext env ui fs)))).
Proof.
  destruct (value (from_env ext env fs)) as [config|e] eqn:Hfe.
  2:{ rewrite main_eq, main_try_eq, Hfe. cbn [answer effects].
      rewrite (push_tokens_quiet _ (inward_pushes _ _ (inward_from_env ext env))).
      constructor. }
  destruct (value (setup_repository ext config fs)) as [[]|e] eqn:Hsu.
  2:{ rewrite main_eq, main_try_eq, Hfe, Hsu. cbn [answer effects].
      rewrite push_tokens_app,
        (push_tokens_quiet _ (inward_pushes _ _ (inward_from_env ext env))),
        (push_tokens_quiet _ (inward_pushes _ _ (inward_setup_repository ext config))).
      constructor. }
  destruct (decide (model_id_field ui = "")) as [Hid|Hid].
  { rewrite (push_tokens_quiet _ (main_waits_for_input_pushes env ui fs config
                                    Hfe Hsu (or_introl Hid))).
    constructor. }
  destruct (proceed_clicked ui) eqn:Hpressed.
  2:{ rewrite (push_tokens_quiet _ (main_waits_for_input_pushes env ui fs config
                                      Hfe Hsu (or_intror Hpressed))).
      constructor. }
  rewrite (main_pressed env ui fs config Hfe Hsu Hid Hpressed).
  destruct (convert_model_eq config (model_id_field ui)
              (disk (setup_repository ext config fs))) as (ok & msg & Hcv).
  assert (value (convert_model ext config (model_id_field ui)
                   (disk (setup_repository ext config fs)))
          = Ok (ok, Some msg)) as Hcvv by (by rewrite Hcv).
  rewrite (main_convert_eq _ _ _ _ ok (Some msg) Hcvv).
  destruct ok.
  - destruct (upload_model_value config (model_id_field ui)
                (disk (convert_model ext config (model_id_field ui)
                         (disk (setup_repository ext config fs)))))
      as [err Herr].
    rewrite (main_upload_eq _ _ _ _ err Herr).
    unfold after. cbn [answer effects]. rewrite !push_tokens_app.
    rewrite (push_tokens_quiet _ (inward_pushes _ _ (inward_from_env ext env))),
      (push_tokens_quiet _ (inward_pushes _ _ (inward_setup_repository ext config))),
      (push_tokens_quiet _ (convert_model_pushes config _ _)).
    cbn [app].
    destruct (upload_model_push_tokens config (model_id_field ui)
                (disk (convert_model ext config (model_id_field ui)
                         (disk (setup_repository ext config fs)))))
      as [-> | ->]; [constructor |].
    constructor; [| constructor]. exact (from_env_token env fs config Hfe).
  - unfold after. cbn [answer effects]. rewrite !push_tokens_app.
    rewrite (push_tokens_quiet _ (inward_pushes _ _ (inward_from_env ext env))),
      (push_tokens_quiet _ (inward_pushes _ _ (inward_setup_repository ext config))),
      (push_tokens_quiet _ (convert_model_pushes config _ _)).
    constructor.
Qed.

End DriverCases.

(** * The further properties on the sample worlds *)

Lemma from_env_returns_usable_token_witness :
  value (from_env sample_ext space_env fresh_fs) = Ok (cls "hf_secret" "alice") ∧
  hf_token (cls "hf_secret" "alice") ≠ "" ∧
  (length (effects (from_env sample_ext space_env fresh_fs)) ≤ 1)%nat.
Proof.
  assert (value (from_env sample_ext space_env fresh_fs)
          = Ok (cls "hf_secret" "alice")) as Hval by (vm_compute; reflexivity).
  split; [exact Hval |].
  destruct (from_env_returns_usable_token sample_ext space_env fresh_fs _ Hval)
    as (Htoken & _ & _ & _ & Hlen).
  split; [exact Htoken | exact Hlen].
Defined.

Lemma from_env_session_token_first_witness :
  session_state visitor_env !! "user_hf_token" = Some "hf_visitor" ∧
  effects (from_env sample_ext visitor_env fresh_fs)
    = [EvWhoami (Some "hf_visitor")] ∧
  value (from_env sample_ext visitor_env fresh_fs)
    = Ok (cls "hf_visitor" "alice").
Proof.
  assert (session_state visitor_env !! "user_hf_token" = Some "hf_visitor")
    as Htok by (vm_compute; reflexivity).
  assert ("hf_visitor" ≠ "") as Hne by discriminate.
  split; [exact Htok |].
  exact (from_env_session_token_first sample_ext visitor_env fresh_fs
           "hf_visitor" Htok Hne).
Defined.

Lemma from_env_secret_token_witness :
  truthy (session_state space_env !! "user_hf_token") = false ∧
  secrets space_env !! "HF_TOKEN" = Some "hf_secret" ∧
  from_env failing_ext space_env fresh_fs
    = Outcome (Ok (cls "hf_secret" "alice")) fresh_fs [].
Proof.
  assert (truthy (session_state space_env !! "user_hf_token") = false)
    as Huser by (vm_compute; reflexivity).
  assert (secrets space_env !! "HF_TOKEN" = Some "hf_secret")
    as Htok by (vm_compute; reflexivity).
  assert ("hf_secret" ≠ "") as Hne by discriminate.
  split; [exact Huser |]. split; [exact Htok |].
  exact (from_env_secret_token failing_ext space_env fresh_fs "hf_secret"
           Huser Htok Hne).
Defined.

Lemma setup_repository_downloads_resolved_reference_witness :
  exists_at fresh_fs (repo_path sample_config) = false ∧
  ∃ rest,
    effects (setup_repository branch_ext sample_config fresh_fs)
      = [EvExists ["transformers.js"]]
        ++ effects (_get_ref_type branch_ext sample_config fresh_fs)
        ++ [EvUrlretrieve
              "https://github.com/xenova/transformers.js/archive/refs/heads/3.0.0.tar.gz"
              ["transformers_3.0.0.tar.gz"]]
        ++ rest.
Proof.
  assert (exists_at fresh_fs (repo_path sample_config) = false) as Hex
    by (vm_compute; reflexivity).
  split; [exact Hex |].
  exact (setup_repository_downloads_resolved_reference branch_ext sample_config
           fresh_fs Hex).
Defined.


Lemma sample_tmp_not_above (fs' : filesystem) :
  ¬ under (mkdtemp_path sample_ext fs') (repo_path sample_config).
Proof. intros [k Hk]. discriminate Hk. Defined.

Lemma setup_repository_then_noop_witness :
  exists_at fresh_fs (repo_path sample_config) = false ∧
  value (setup_repository sample_ext sample_config fresh_fs) = Ok tt ∧
  exists_at (disk (setup_repository sample_ext sample_config fresh_fs))
            (repo_path sample_config) = true.
Proof.
  assert (exists_at fresh_fs (repo_path sample_config) = false) as Hex
    by (vm_compute; reflexivity).
  assert (value (setup_repository sample_ext sample_config fresh_fs) = Ok tt)
    as Hval by (vm_compute; reflexivity).
  assert (archive_path sample_config ≠ repo_path sample_config) as Harch
    by discriminate.
  split; [exact Hex |]. split; [exact Hval |].
  exact (proj1 (setup_repository_then_noop sample_ext sample_config fresh_fs
                  Hex sample_tmp_not_above Harch Hval)).
Defined.

(** The archive of the default version, downloaded and nothing else. *)
Lemma downloaded_fs_fresh (q : path) :
  under ["tmp"; "tmpabc"] q →
  (<[ ["transformers_3.0.0.tar.gz"] := File "tgz" ]> fresh_fs) !! q = None.
Proof.
  intros [k ->]. unfold fresh_fs.
  rewrite lookup_insert_ne by discriminate.
  rewrite lookup_insert_ne by discriminate.
  apply lookup_empty.
Defined.

Lemma extract_archive_empty_witness :
  _extract_archive empty_archive_ext sample_config ["transformers_3.0.0.tar.gz"]
                   (<[ ["transformers_3.0.0.tar.gz"] := File "tgz" ]> fresh_fs)
    = Outcome (Raise StopIteration)
              (<[ ["transformers_3.0.0.tar.gz"] := File "tgz" ]> fresh_fs)
              [EvMkdtemp ["tmp"; "tmpabc"];
               EvTarExtract ["transformers_3.0.0.tar.gz"] ["tmp"; "tmpabc"];
               EvIterdir ["tmp"; "tmpabc"]; EvRmtree ["tmp"; "tmpabc"]].
Proof.
  apply (extract_archive_empty empty_archive_ext sample_config
           ["transformers_3.0.0.tar.gz"] "tgz").
  - vm_compute; reflexivity.
  - reflexivity.
  - discriminate.
  - vm_compute; reflexivity.
  - exact downloaded_fs_fresh.
Defined.


Lemma upload_model_returns_hub_answer_witness :
  converted_pushed
    ∈ pushed_trees (effects (upload_model failing_ext sample_config "org/model-x"
                                          converted_fs)) ∧
  value (upload_model failing_ext sample_config "org/model-x" converted_fs)
    = Ok (Some "403 Forbidden").
Proof.
  assert (converted_pushed
            ∈ pushed_trees (effects (upload_model failing_ext sample_config
                                                  "org/model-x" converted_fs)))
    as Hin by decide_by_computation.
  split; [exact Hin |].
  exact (upload_model_returns_hub_answer failing_ext sample_config "org/model-x"
           converted_fs converted_pushed Hin).
Defined.

Lemma upload_model_blocked_move_no_push_witness :
  movable clash_fs (model_folder_path sample_config "org/model-x") "model.onnx"
    = true ∧
  clash_fs !! (onnx_folder_path sample_config "org/model-x" ++ ["model.onnx"])
    = Some Dir ∧
  pushes (effects (upload_model sample_ext sample_config "org/model-x" clash_fs))
    = [].
Proof.
  assert (movable clash_fs (model_folder_path sample_config "org/model-x")
                  "model.onnx" = true) as Hm by (vm_compute; reflexivity).
  assert (clash_fs !! (onnx_folder_path sample_config "org/model-x"
                       ++ ["model.onnx"]) = Some Dir) as Hdir
    by (vm_compute; reflexivity).
  split; [exact Hm |]. split; [exact Hdir |].
  exact (proj1 (upload_model_blocked_move_no_push sample_ext sample_config
                  "org/model-x" clash_fs "model.onnx" eq_refl Hm Hdir)).
Defined.

Lemma upload_model_absolute_identifier_witness :
  is_absolute "/etc" = true ∧
  is_dir_at etc_fs (Path "/etc") = true ∧
  disk (upload_model sample_ext sample_config "/etc" etc_fs)
    !! ["/"; "etc"; "passwd"] = None.
Proof.
  assert (is_dir_at etc_fs (Path "/etc") = true) as Hd
    by (vm_compute; reflexivity).
  split; [reflexivity |]. split; [exact Hd |].
  apply (proj2 (upload_model_absolute_identifier sample_ext sample_config "/etc"
                  etc_fs eq_refl) Hd).
  exists ["passwd"]. reflexivity.
Defined.

Lemma upload_model_empty_identifier_witness :
  Path "" = [] ∧
  is_dir_at converted_fs (repo_path sample_config ++ ["models"]) = true ∧
  disk (upload_model sample_ext sample_config "" converted_fs)
    !! (sample_model_dir ++ ["config.json"]) = None.
Proof.
  assert (is_dir_at converted_fs (repo_path sample_config ++ ["models"]) = true)
    as Hd by (vm_compute; reflexivity).
  split; [reflexivity |]. split; [exact Hd |].
  apply (proj2 (upload_model_empty_identifier sample_ext sample_config ""
                  converted_fs eq_refl eq_refl) Hd).
  exists ["org"; "model-x"; "config.json"]. reflexivity.
Defined.

Lemma main_reports_startup_failure_witness :
  value (from_env sample_ext no_token_author_env fresh_fs)
    = Raise (ValueError "HF_TOKEN must be set") ∧
  main sample_ext no_token_author_env (Form "org/model-x" true) fresh_fs
    = Page (Outcome (Ok tt) fresh_fs [])
           [StWrite page_title; LoggerException "Application error";
            StError "An error occurred: HF_TOKEN must be set"].
Proof.
  assert (value (from_env sample_ext no_token_author_env fresh_fs)
          = Raise (ValueError "HF_TOKEN must be set")) as Hfe
    by (vm_compute; reflexivity).
  split; [exact Hfe |].
  exact (proj1 (main_reports_startup_failure sample_ext no_token_author_env
                  (Form "org/model-x" true) fresh_fs) _ Hfe).
Defined.

Lemma main_waits_for_input_witness :
  value (from_env sample_ext space_env checkout_fs) = Ok sample_config ∧
  value (setup_repository sample_ext sample_config checkout_fs) = Ok tt ∧
  launches (effects (answer (main sample_ext space_env (Form "" true) checkout_fs)))
    = [] ∧
  screen (main sample_ext space_env (Form "" true) checkout_fs)
    = [StWrite page_title; StTextInput model_id_label].
Proof.
  assert (value (from_env sample_ext space_env checkout_fs) = Ok sample_config)
    as Hfe by (vm_compute; reflexivity).
  assert (value (setup_repository sample_ext sample_config checkout_fs) = Ok tt)
    as Hsu by (vm_compute; reflexivity).
  split; [exact Hfe |]. split; [exact Hsu |].
  destruct (main_waits_for_input sample_ext space_env (Form "" true) checkout_fs
              sample_config Hfe Hsu (or_introl eq_refl))
    as (_ & _ & Hlaunch & _ & Hscreen).
  split; [exact Hlaunch | exact Hscreen].
Defined.

Lemma main_conversion_failure_witness :
  value (convert_model bad_model_ext sample_config "org/model-x" converted_fs)
    = Ok (false, Some "Unknown model") ∧
  screen (main bad_model_ext space_env (Form "org/model-x" true) converted_fs)
    = form_widgets
      ++ [StSpinner "Converting model...";
          StError "Conversion failed: Unknown model"] ∧
  pushes (effects (answer (main bad_model_ext space_env
                                (Form "org/model-x" true) converted_fs))) = [].
Proof.
  assert (value (from_env bad_model_ext space_env converted_fs) = Ok sample_config)
    as Hfe by (vm_compute; reflexivity).
  assert (value (setup_repository bad_model_ext sample_config converted_fs) = Ok tt)
    as Hsu by (vm_compute; reflexivity).
  assert (value (convert_model bad_model_ext sample_config "org/model-x"
                   (disk (setup_repository bad_model_ext sample_config converted_fs)))
          = Ok (false, Some "Unknown model")) as Hcv
    by (vm_compute; reflexivity).
  assert ("org/model-x" ≠ "") as Hid by discriminate.
  split; [vm_compute; reflexivity |].
  destruct (main_conversion_failure bad_model_ext space_env
              (Form "org/model-x" true) converted_fs sample_config
              (Some "Unknown model") Hfe Hsu Hid eq_refl Hcv)
    as [Hmain Hpush].
  split; [by rewrite Hmain | exact Hpush].
Defined.

Lemma main_upload_report_witness :
  value (upload_model silent_hub_ext sample_config "org/model-x" converted_fs)
    = Ok (Some "") ∧
  screen (main silent_hub_ext space_env (Form "org/model-x" true) converted_fs)
    = form_widgets
      ++ [StSpinner "Converting model..."; StSuccess "Conversion successful!";
          StCode (Some ""); StSpinner "Uploading model...";
          StSuccess "Upload successful!";
          StWrite "You can now go and view the model on Hugging Face!";
          StLinkButton "Go to org/model-x" "https://huggingface.co/org/model-x"].
Proof.
  assert (value (from_env silent_hub_ext space_env converted_fs) = Ok sample_config)
    as Hfe by (vm_compute; reflexivity).
  assert (value (setup_repository silent_hub_ext sample_config converted_fs) = Ok tt)
    as Hsu by (vm_compute; reflexivity).
  assert (value (convert_model silent_hub_ext sample_config "org/model-x"
                   (disk (setup_repository silent_hub_ext sample_config
                                           converted_fs)))
          = Ok (true, Some "")) as Hcv by (vm_compute; reflexivity).
  assert (value (upload_model silent_hub_ext sample_config "org/model-x"
                   (disk (convert_model silent_hub_ext sample_config "org/model-x"
                            (disk (setup_repository silent_hub_ext sample_config
                                                    converted_fs)))))
          = Ok (Some "")) as Hup by (vm_compute; reflexivity).
  assert ("org/model-x" ≠ "") as Hid by discriminate.
  split; [vm_compute; reflexivity |].
  exact (proj2 (main_upload_report silent_hub_ext space_env
                  (Form "org/model-x" true) converted_fs sample_config
                  (Some "") (Some "") Hfe Hsu Hid eq_refl Hcv Hup)).
Defined.
